(** * Hasiru Mitra voice pipeline: a shallow embedding of
      [hasiru-mitra-ai/voice_processing_system.py] and its verified properties.

    Conventions of the embedding.

    - Python [str] values are held as Rocq [string]s carrying the UTF-8
      encoding of the text.  The substring test [kw in text] on code points
      coincides with the substring test on the encodings, because UTF-8 is
      self-synchronising; [len] counts the bytes that start a code point.
    - [str.strip], [str.lower] and the regular expressions are modelled
      on ASCII text, where their character classes are the ASCII ones; on
      any other text they are the library's own functions, taken as
      section variables.
    - Python [float] is IEEE-754 binary64, i.e. Rocq's primitive [float];
      arithmetic and comparisons are the kernel's.
    - [dict]s whose iteration order the code relies on are association lists
      in insertion order; the entity map and the session registry are
      [gmap]s keyed by strings.
    - A call that may raise returns a [result]; a collaborator outside the
      repository (speech engines, language identification, NER, the clock)
      is a section variable whose [option] result is [None] when the call
      raises. *)

From Stdlib Require Import ZArith String Ascii List Bool Lia.
From Stdlib Require Import Floats.PrimFloat Numbers.Cyclic.Int63.Uint63.
From Stdlib Require Import Floats.SpecFloat Floats.FloatAxioms.
From stdpp Require Import base option list gmap strings.

Import ListNotations.
#[local] Open Scope string_scope.
#[local] Set Warnings "-inexact-float".

(** ** Python values shared by the components *)

Module Py.

(** Exceptions the modelled code can raise by itself. *)
Inductive exn : Type :=
| KeyError (key : string)
| IndexError.

Inductive result (A : Type) : Type :=
| Ok (a : A)
| Raise (e : exn).
Arguments Ok {A} a.
Arguments Raise {A} e.

Definition bind {A B} (r : result A) (k : A -> result B) : result B :=
  match r with
  | Ok a => k a
  | Raise e => Raise e
  end.

(** [d[k]] and [d.get(k, dflt)] on a dict kept in insertion order. *)
Fixpoint lookup {V} (d : list (string * V)) (k : string) : option V :=
  match d with
  | [] => None
  | (k', v) :: d' => if String.eqb k' k then Some v else lookup d' k
  end.

Definition get {V} (d : list (string * V)) (k : string) (dflt : V) : V :=
  match lookup d k with
  | Some v => v
  | None => dflt
  end.

(** [k in d] *)
Definition has_key {V} (d : list (string * V)) (k : string) : bool :=
  match lookup d k with
  | Some _ => true
  | None => false
  end.

Definition getitem {V} (d : list (string * V)) (k : string) : result V :=
  match lookup d k with
  | Some v => Ok v
  | None => Raise (KeyError k)
  end.

(** Truth value of a string ([""] is falsy) and of an optional string
    ([None] is falsy); [x or dflt]. *)
Definition truthy (s : string) : bool := negb (String.eqb s "").

Definition truthy_opt (o : option string) : bool :=
  match o with
  | Some s => truthy s
  | None => false
  end.

Definition or_default (o : option string) (dflt : string) : string :=
  match o with
  | Some s => if truthy s then s else dflt
  | None => dflt
  end.

(** [int -> float] conversion, and [min(a, b)] as Python computes it:
    the first argument is kept unless the second is strictly smaller. *)
Definition float_of_nat (n : nat) : float :=
  PrimFloat.of_uint63 (Uint63.of_Z (Z.of_nat n)).

Definition fmin (a b : float) : float :=
  if PrimFloat.ltb b a then b else a.

(** [l[-n:]] *)
Definition last_n {A} (n : nat) (l : list A) : list A :=
  drop (length l - n) l.

End Py.

(** ** Text primitives *)

Module PyStr.

(** [s.startswith(p)] *)
Fixpoint startswith (p s : string) : bool :=
  match p, s with
  | EmptyString, _ => true
  | String a p', String b s' => Ascii.eqb a b && startswith p' s'
  | String _ _, EmptyString => false
  end.

(** [kw in text] *)
Fixpoint contains (kw text : string) : bool :=
  startswith kw text ||
  match text with
  | EmptyString => false
  | String _ text' => contains kw text'
  end.

(** [any(keyword in text for keyword in keywords)] *)
Definition any_in (keywords : list string) (text : string) : bool :=
  existsb (fun keyword => contains keyword text) keywords.

(** [sum(1 for keyword in keywords if keyword in text)] *)
Definition count_in (keywords : list string) (text : string) : nat :=
  length (List.filter (fun keyword => contains keyword text) keywords).

(** A byte of the form 10xxxxxx continues a code point. *)
Definition is_continuation (c : ascii) : bool :=
  let n := nat_of_ascii c in (128 <=? n)%nat && (n <? 192)%nat.

(** [len(s)], in code points. *)
Fixpoint len (s : string) : nat :=
  match s with
  | EmptyString => 0
  | String c s' => (if is_continuation c then 0 else 1) + len s'
  end.

(** The text is made of ASCII characters only. *)
Definition is_ascii (s : string) : bool :=
  forallb (fun c => (nat_of_ascii c <? 128)%nat) (list_ascii_of_string s).

End PyStr.

(** ** [str] and [re] on ASCII text

    The functions of this module are Python's [str.strip], [str.lower]
    and the [re] calls of the NLU, restricted to texts and patterns made of
    ASCII characters only.  There the character classes are finite and
    known: [\s] and [str.strip] take the six ASCII blanks and the four
    separators 0x1C-0x1F, [\d] the ten digits, [\w] letters, digits and
    underscore, and case folding (of [str.lower] and of [re.IGNORECASE])
    maps [A-Z] to [a-z].  On other text Python consults the Unicode
    database; the callers therefore test [PyStr.is_ascii] before they use
    a function of this module and hand any other text to the library (see
    [UnicodeText] and [MultilingualNLU]). *)

Module AsciiText.

Definition code (c : ascii) : nat := nat_of_ascii c.

Definition between (lo hi : nat) (c : ascii) : bool :=
  (lo <=? code c)%nat && (code c <=? hi)%nat.

Definition is_space (c : ascii) : bool := between 9 13 c || between 28 32 c.
Definition is_digit (c : ascii) : bool := between 48 57 c.
Definition is_upper (c : ascii) : bool := between 65 90 c.
Definition is_word (c : ascii) : bool :=
  between 97 122 c || is_upper c || is_digit c || (code c =? 95)%nat.

Definition lower_char (c : ascii) : ascii :=
  if is_upper c then ascii_of_nat (code c + 32) else c.

(** [s.lower()] *)
Fixpoint lower (s : string) : string :=
  match s with
  | EmptyString => EmptyString
  | String c s' => String (lower_char c) (lower s')
  end.

Fixpoint lstrip (s : string) : string :=
  match s with
  | EmptyString => EmptyString
  | String c s' => if is_space c then lstrip s' else s
  end.

Fixpoint rstrip (s : string) : string :=
  match s with
  | EmptyString => EmptyString
  | String c s' =>
      let r := rstrip s' in
      if is_space c && String.eqb r "" then "" else String c r
  end.

(** [s.strip()] *)
Definition strip (s : string) : string := rstrip (lstrip s).

(** [re.sub(r'\s+', ' ', s)]: every maximal run of blanks becomes one
    space; [in_run] tells that the previous character was a blank. *)
Fixpoint collapse_blanks (in_run : bool) (s : string) : string :=
  match s with
  | EmptyString => EmptyString
  | String c s' =>
      if is_space c then
        if in_run then collapse_blanks true s'
        else String " " (collapse_blanks true s')
      else String c (collapse_blanks false s')
  end.

Definition head (s : string) : option ascii :=
  match s with
  | EmptyString => None
  | String c _ => Some c
  end.

Fixpoint skip (n : nat) (s : string) : string :=
  match n, s with
  | O, _ => s
  | S n', String _ s' => skip n' s'
  | S _, EmptyString => EmptyString
  end.

Definition take (n : nat) (s : string) : string := String.substring 0 n s.

(** Prefix test under [re.IGNORECASE]. *)
Fixpoint istartswith (p s : string) : bool :=
  match p, s with
  | EmptyString, _ => true
  | String a p', String b s' =>
      Ascii.eqb (lower_char a) (lower_char b) && istartswith p' s'
  | String _ _, EmptyString => false
  end.

(** [\b] between two neighbouring positions; outside the text counts as
    a non-word character. *)
Definition is_word_opt (o : option ascii) : bool :=
  match o with
  | Some c => is_word c
  | None => false
  end.

Definition word_boundary (before after : option ascii) : bool :=
  xorb (is_word_opt before) (is_word_opt after).

(** One attempt of [\b(a1|...|an)\b] at a position whose preceding
    character is [prev]: the alternatives are tried in order and the first
    one that is followed by a boundary wins. *)
Fixpoint match_alternative (alts : list string) (s : string) : option string :=
  match alts with
  | [] => None
  | alt :: alts' =>
      let n := String.length alt in
      if istartswith alt s
         && word_boundary (String.get (n - 1) s) (head (skip n s))
      then Some (take n s)
      else match_alternative alts' s
  end.

Definition match_word (alts : list string) (prev : option ascii) (s : string)
  : option string :=
  if word_boundary prev (head s) then match_alternative alts s else None.

(** The left-to-right scan of [re.findall]: [inside] characters still
    belong to the previous match and are stepped over. *)
Fixpoint findall_words_from (alts : list string) (prev : option ascii)
    (inside : nat) (s : string) : list string :=
  match s with
  | EmptyString => []
  | String c s' =>
      match inside with
      | S k => findall_words_from alts (Some c) k s'
      | O =>
          match match_word alts prev s with
          | Some m => m :: findall_words_from alts (Some c) (String.length m - 1) s'
          | None => findall_words_from alts (Some c) 0 s'
          end
      end
  end.

(** [re.findall(r'\b(a1|...|an)\b', s, re.IGNORECASE)] for non-empty
    literal alternatives. *)
Definition findall_words (alts : list string) (s : string) : list string :=
  findall_words_from alts None 0 s.

(** Longest prefix of characters in a class, and the rest. *)
Fixpoint span (p : ascii -> bool) (s : string) : string * string :=
  match s with
  | EmptyString => (EmptyString, EmptyString)
  | String c s' =>
      if p c then let '(a, b) := span p s' in (String c a, b)
      else (EmptyString, s)
  end.

Fixpoint match_literal (alts : list string) (s : string) : option string :=
  match alts with
  | [] => None
  | alt :: alts' =>
      if istartswith alt s then Some (take (String.length alt) s)
      else match_literal alts' s
  end.

(** One attempt of [(\d+(?:\.\d+)?)\s*(u1|...|un)] at a position.  No
    unit starts with a digit, a dot or a blank, so of all the ways the
    backtracking search can split the text only the one with the longest
    digit runs and the longest blank run can reach a unit.  The result is
    the two groups and the length of the whole match. *)
Definition match_quantity (units : list string) (s : string)
  : option (string * string * nat) :=
  let '(digits, r1) := span is_digit s in
  if String.eqb digits "" then None
  else
    let '(number, r2) :=
      match r1 with
      | String "." r1' =>
          let '(fraction, r2) := span is_digit r1' in
          if String.eqb fraction "" then (digits, r1)
          else (digits +:+ "." +:+ fraction, r2)
      | _ => (digits, r1)
      end in
    let '(blanks, r3) := span is_space r2 in
    match match_literal units r3 with
    | Some unit =>
        Some (number, unit,
              String.length number + String.length blanks + String.length unit)
    | None => None
    end.

Fixpoint findall_quantities_from (units : list string) (inside : nat) (s : string)
  : list (string * string) :=
  match s with
  | EmptyString => []
  | String c s' =>
      match inside with
      | S k => findall_quantities_from units k s'
      | O =>
          match match_quantity units s with
          | Some (number, unit, n) =>
              (number, unit) :: findall_quantities_from units (n - 1) s'
          | None => findall_quantities_from units 0 s'
          end
      end
  end.

(** [re.findall(r'(\d+(?:\.\d+)?)\s*(u1|...|un)', s, re.IGNORECASE)] *)
Definition findall_quantities (units : list string) (s : string)
  : list (string * string) :=
  findall_quantities_from units 0 s.

End AsciiText.

(** Python's own [str.strip], [re.sub(r'\s+', ' ', .)], [str.lower] and
    the quantity [re.findall], for a text that is not pure ASCII. *)
Record UnicodeText : Type := mkUnicodeText {
  unicode_strip : string -> string;
  unicode_collapse_blanks : string -> string;
  unicode_lower : string -> string;
  unicode_findall_quantities : list string -> string -> list (string * string)
}.

(** ** LanguageDetector *)

Module LanguageDetector.

Definition language_keywords : list (string * list string) :=
  [ ("hi", ["फसल"; "खेत"; "बीज"; "पानी"; "उर्वरक"; "कीट"; "रोग"; "मिट्टी"]);
    ("en", ["crop"; "farm"; "seed"; "water"; "fertilizer"; "pest"; "disease"; "soil"]);
    ("kn", ["ಬೆಳೆ"; "ಹೊಲ"; "ಬೀಜ"; "ನೀರು"; "ಗೊಬ್ಬರ"; "ಕೀಟ"; "ರೋಗ"; "ಮಣ್ಣು"]) ].

Definition lang_mapping : list (string * string) :=
  [ ("hi", "hi"); ("en", "en"); ("kn", "kn") ].

Definition hi_keywords : list string := Py.get language_keywords "hi" [].
Definition en_keywords : list string := Py.get language_keywords "en" [].
Definition kn_keywords : list string := Py.get language_keywords "kn" [].

(** The loop [for lang, keywords in ...items(): if any(...): return lang]. *)
Fixpoint first_keyword_hit (table : list (string * list string)) (text : string)
  : option string :=
  match table with
  | [] => None
  | (lang, keywords) :: table' =>
      if PyStr.any_in keywords text then Some lang
      else first_keyword_hit table' text
  end.

Section Detector.

(** [langdetect.detect]; [None] when it raises. *)
Variable langdetect : string -> option string.

Definition _detect_from_text (text : string) : string :=
  match first_keyword_hit language_keywords text with
  | Some lang => lang
  | None =>
      match langdetect text with
      | Some result => Py.get lang_mapping result "en"
      | None => "en"
      end
  end.

(** The audio classifier is a placeholder that answers [None]. *)
Definition _detect_from_audio (audio_features : list float) : option string :=
  None.

Definition detect_language (text : string) (audio_features : option (list float))
  : string :=
  let text_lang := _detect_from_text text in
  match audio_features with
  | Some features =>
      let audio_lang := _detect_from_audio features in
      match audio_lang with
      | Some l => if String.eqb l text_lang then text_lang else text_lang
      | None => text_lang
      end
  | None => text_lang
  end.

End Detector.

End LanguageDetector.

(** ** MultilingualASR *)

Module MultilingualASR.

Definition language_configs : list (string * list (string * string)) :=
  [ ("hi", [("model_name", "hindi"); ("locale", "hi-IN")]);
    ("en", [("model_name", "english"); ("locale", "en-IN")]);
    ("kn", [("model_name", "kannada"); ("locale", "kn-IN")]) ].

(** What the recogniser reports: speech recognised with its text, or any
    other result reason. *)
Inductive recognition : Type :=
| RecognizedSpeech (text : string)
| NoMatch.

(** The decoding language Whisper is forced to: the hint unless it is
    ['auto']. *)
Definition forced_language (language_hint : string) : option string :=
  if negb (String.eqb language_hint "auto") then Some language_hint else None.

Section Engines.

Variable langdetect : string -> option string.

(** Decoded audio samples, and the two library steps that produce and
    consume them: [librosa.load] with the amplitude normalisation, and
    Whisper's [generate] + [batch_decode] + per-token top probability,
    given the forced decoding language ([None] for auto-detection).
    Both raise on failure. *)
Variable AudioArray : Type.
Variable preprocess_audio : string -> option AudioArray.
Variable whisper_generate :
  AudioArray -> option string -> option (string * list float).

(** [numpy.mean] over a non-empty list. *)
Variable np_mean : list float -> float.

(** [os.getenv('AZURE_SPEECH_KEY')], and [recognize_once] of the Azure
    recogniser configured for a locale. *)
Variable azure_speech_key : option string.
Variable azure_recognize_once : string -> string -> option recognition.

Definition _calculate_whisper_confidence (scores : list float) : float :=
  match scores with
  | [] => 0.5%float
  | _ => np_mean scores
  end.

(** The body of [_whisper_transcribe]; [None] when an exception escapes. *)
Definition _whisper_transcribe (audio_array : AudioArray) (language_hint : string)
  : option (string * string * float) :=
  match whisper_generate audio_array (forced_language language_hint) with
  | None => None
  | Some (transcription, scores) =>
      let confidence := _calculate_whisper_confidence scores in
      let detected_language :=
        LanguageDetector.detect_language langdetect transcription None in
      Some (transcription, detected_language, confidence)
  end.

(** [_azure_transcribe] catches everything and answers [("", 0.0)]. *)
Definition _azure_transcribe (audio_data : string) (language : string)
  : string * float :=
  let locale := Py.get (Py.get language_configs language []) "locale" "en-IN" in
  match azure_recognize_once audio_data locale with
  | Some (RecognizedSpeech text) =>
      let confidence :=
        Py.fmin 0.9 (Py.float_of_nat (PyStr.len text) / 100.0 + 0.5)%float in
      (text, confidence)
  | Some NoMatch => ("", 0.0%float)
  | None => ("", 0.0%float)
  end.

(** The [try] block of [transcribe]; [None] when an exception reaches
    the handler. *)
Definition transcribe_try (audio_data : string) (language_hint : string)
  : option (string * string * float) :=
  match preprocess_audio audio_data with
  | None => None
  | Some audio_array =>
      match _whisper_transcribe audio_array language_hint with
      | None => None
      | Some (text, detected_lang, confidence) =>
          if PrimFloat.ltb confidence 0.7 && Py.truthy_opt azure_speech_key then
            let '(azure_text, azure_conf) :=
              _azure_transcribe audio_data detected_lang in
            if PrimFloat.ltb confidence azure_conf
            then Some (azure_text, detected_lang, azure_conf)
            else Some (text, detected_lang, confidence)
          else Some (text, detected_lang, confidence)
      end
  end.

Definition transcribe (audio_data : string) (language_hint : string)
  : string * string * float :=
  match transcribe_try audio_data language_hint with
  | Some r => r
  | None => ("", "en", 0.0%float)
  end.

End Engines.

End MultilingualASR.

(** ** Data classes *)

Record EntityValue : Type := mkEntityValue {
  value : string;
  confidence : float
}.

(** An entity map: entity type to the list of its values. *)
Abbreviation Entities := (gmap string (list EntityValue)).

(** One entry of [conversation_history].  The timestamp is the clock
    reading taken by [update_context]. *)
Record Turn : Type := mkTurn {
  turn_timestamp : Z;
  turn_user_input : string;
  turn_intent : string;
  turn_entities : Entities;
  turn_response : string
}.

Record ConversationContext : Type := mkConversationContext {
  user_id : string;
  session_id : string;
  language : string;
  current_intent : string;
  entities : Entities;
  conversation_history : list Turn;
  user_profile : gmap string string;
  farm_context : gmap string string
}.

Record VoiceInput : Type := mkVoiceInput {
  audio_data : string;
  language_hint : option string;
  vi_user_id : option string;
  vi_context : option (gmap string string);
  call_sid : option string
}.

Record VoiceResponse : Type := mkVoiceResponse {
  transcribed_text : string;
  detected_language : string;
  intent : string;
  vr_entities : Entities;
  response_text : string;
  response_audio_url : string;
  confidence_score : float;
  processing_time_ms : Z;
  context_updated : option ConversationContext
}.

(** ** MultilingualNLU *)

Module MultilingualNLU.

(** One item of a [ner] pipeline's output. *)
Record NerHit : Type := mkNerHit {
  entity : string;
  word : string;
  score : float
}.

Definition multilingual_keywords : list (string * list (string * list string)) :=
  [ ("crop_advice",
      [ ("hi", ["फसल"; "बुआई"; "खेती"; "उगाना"]);
        ("en", ["crop"; "planting"; "farming"; "growing"]);
        ("kn", ["ಬೆಳೆ"; "ಬಿತ್ತನೆ"; "ಕೃಷಿ"; "ಬೆಳೆಯುವ"]) ]);
    ("pest_disease",
      [ ("hi", ["कीट"; "रोग"; "बीमारी"; "नुकसान"]);
        ("en", ["pest"; "disease"; "insect"; "damage"]);
        ("kn", ["ಕೀಟ"; "ರೋಗ"; "ಕೀಟಕ"; "ಹಾನಿ"]) ]) ].

Definition filler_words : list (string * list string) :=
  [ ("hi", ["जी"; "हाँ"; "नहीं"; "क्या"; "कैसे"]);
    ("kn", ["ಹೌದು"; "ಇಲ್ಲ"; "ಏನು"; "ಹೇಗೆ"]) ].

Definition crop_patterns : list (string * list string) :=
  [ ("hi", ["धान"; "गेहूं"; "मक्का"; "टमाटर"; "प्याज"; "कपास"; "गन्ना"; "हल्दी"; "मिर्च"]);
    ("en", ["rice"; "wheat"; "corn"; "tomato"; "onion"; "cotton"; "sugarcane";
            "turmeric"; "chili"]);
    ("kn", ["ಅಕ್ಕಿ"; "ಗೋಧಿ"; "ಜೋಳ"; "ಟೊಮೇಟೊ"; "ಈರುಳ್ಳಿ"; "ಕಪಾಸು"; "ಕಬ್ಬು"; "ಅರಿಶಿನ";
            "ಮೆಣಸಿನಕಾಯಿ"]) ].

Definition quantity_units : list string :=
  ["किलो"; "kg"; "लीटर"; "liter"; "एकड़"; "acre"; "हेक्टेयर"; "hectare"].

Definition season_patterns : list (string * list string) :=
  [ ("hi", ["खरीफ"; "रबी"; "जायद"; "मानसून"]);
    ("en", ["kharif"; "rabi"; "zaid"; "monsoon"; "summer"; "winter"]);
    ("kn", ["ಖರೀಫ್"; "ರಬಿ"; "ಜಾಯದ್"; "ಮಾನ್ಸೂನ್"]) ].

(** [max(intent_scores, key=intent_scores.get)]: the running best is
    replaced only by a strictly greater score, so the earliest of equal
    scores wins. *)
Fixpoint max_from (best : string * float) (rest : list (string * float))
  : string * float :=
  match rest with
  | [] => best
  | item :: rest' =>
      if PrimFloat.ltb (snd best) (snd item) then max_from item rest'
      else max_from best rest'
  end.

(** [intent_scores[key] *= factor] *)
Definition scale_item (key : string) (factor : float)
    (scores : list (string * float)) : list (string * float) :=
  map (fun item =>
         if String.eqb (fst item) key then (fst item, (snd item * factor)%float)
         else item) scores.

(** [lang_keywords.get(language, lang_keywords.get('en', []))] *)
Definition keywords_for (lang_keywords : list (string * list string)) (language : string)
  : list string :=
  Py.get lang_keywords language (Py.get lang_keywords "en" []).

(** No keyword of any intent, in the list chosen for the language, occurs
    in the text. *)
Definition no_intent_keyword (text language : string) : bool :=
  forallb (fun entry => negb (PyStr.any_in (keywords_for (snd entry) language) text))
          multilingual_keywords.

(** The keyword list an intent is scored with for a language. *)
Definition intent_keywords (intent language : string) : list string :=
  keywords_for (Py.get multilingual_keywords intent []) language.

(** The NER results of one entity type that pass the confidence
    threshold, in the order the pipeline reported them. *)
Definition ner_values (key : string) (ner_results : list NerHit) : list EntityValue :=
  map (fun hit => mkEntityValue (word hit) (score hit))
      (List.filter (fun hit => String.eqb (entity hit) key && PrimFloat.ltb 0.5 (score hit))
                   ner_results).

(** An entity map as the extractors build it: no entity type is stored
    with an empty list, and every stored value has a confidence above
    0.5. *)
Definition entity_map_ok (entities : Entities) : Prop :=
  forall (key : string) (values : list EntityValue),
    entities !! key = Some values ->
    values <> [] /\
    Forall (fun v => PrimFloat.ltb 0.5 (confidence v) = true) values.

Section Models.

(** The Hugging Face pipelines: the intent classifier ([None] when the
    call raises; its label is discarded by the code) and the NER
    pipeline registered under a language key. *)
Variable intent_classifier : string -> option string.
Variable entity_extractors : string -> string -> option (list NerHit).

(** [re.sub] and [re.findall] on [\b(a1|...|an)\b] when the
    alternatives are words of Devanagari or Kannada, or the text is not
    pure ASCII: the boundaries and the case folding then depend on the
    Unicode class of every character. *)
Variable unicode_sub_words : list string -> string -> string.
Variable unicode_findall_words : list string -> string -> list string.

(** The other text functions of the library on a text that is not pure
    ASCII. *)
Variable unicode_text : UnicodeText.

(** [text.strip()] *)
Definition str_strip (text : string) : string :=
  if PyStr.is_ascii text then AsciiText.strip text
  else unicode_strip unicode_text text.

(** [re.sub(r'\s+', ' ', text)] *)
Definition re_sub_blanks (text : string) : string :=
  if PyStr.is_ascii text then AsciiText.collapse_blanks false text
  else unicode_collapse_blanks unicode_text text.

(** [text.lower()] *)
Definition str_lower (text : string) : string :=
  if PyStr.is_ascii text then AsciiText.lower text
  else unicode_lower unicode_text text.

(** [re.findall(r'\b(a1|...|an)\b', text, re.IGNORECASE)] *)
Definition re_findall_words (alts : list string) (text : string) : list string :=
  if forallb PyStr.is_ascii alts && PyStr.is_ascii text
  then AsciiText.findall_words alts text
  else unicode_findall_words alts text.

(** [re.findall(quantity_pattern, text, re.IGNORECASE)]; in an ASCII
    text only the ASCII units can occur. *)
Definition re_findall_quantities (units : list string) (text : string)
  : list (string * string) :=
  if PyStr.is_ascii text then AsciiText.findall_quantities units text
  else unicode_findall_quantities unicode_text units text.

Definition _preprocess_text (text : string) (language : string) : string :=
  let text := re_sub_blanks (str_strip text) in
  let text :=
    if String.eqb language "hi" then
      unicode_sub_words (Py.get filler_words "hi" []) text
    else if String.eqb language "kn" then
      unicode_sub_words (Py.get filler_words "kn" []) text
    else text in
  str_lower text.

(** The scoring loop over [multilingual_keywords.items()]. *)
Fixpoint score_intents (table : list (string * list (string * list string)))
    (text language : string) : list (string * float) :=
  match table with
  | [] => []
  | (intent, lang_keywords) :: table' =>
      let keywords := keywords_for lang_keywords language in
      let score := PyStr.count_in keywords text in
      if (0 <? score)%nat then
        (intent, (Py.float_of_nat score / Py.float_of_nat (length keywords))%float)
          :: score_intents table' text language
      else score_intents table' text language
  end.

Definition _classify_intent (text language : string) (context : ConversationContext)
  : string * float :=
  let intent_scores := score_intents multilingual_keywords text language in
  let intent_scores :=
    if Py.truthy (current_intent context)
       && Py.has_key intent_scores (current_intent context)
    then scale_item (current_intent context) 1.2 intent_scores
    else intent_scores in
  match intent_scores with
  | first :: rest =>
      let best := max_from first rest in
      (fst best, Py.fmin 0.9 (snd best))
  | [] =>
      match intent_classifier text with
      | Some _ => ("general_query", 0.6%float)
      | None => ("general_query", 0.5%float)
      end
  end.

Definition _extract_agricultural_entities (text language intent : string)
  : Entities :=
  let entities : Entities := ∅ in
  let pattern := Py.get crop_patterns language (Py.get crop_patterns "en" []) in
  let crops := re_findall_words pattern text in
  let entities :=
    match crops with
    | [] => entities
    | _ => <["crops" := map (fun crop => mkEntityValue crop 0.8) crops]> entities
    end in
  let quantities := re_findall_quantities quantity_units text in
  let entities :=
    match quantities with
    | [] => entities
    | _ =>
        <["quantities" :=
            map (fun qty => mkEntityValue (fst qty +:+ " " +:+ snd qty) 0.9)
                quantities]> entities
    end in
  let season_pattern :=
    Py.get season_patterns language (Py.get season_patterns "en" []) in
  let seasons := re_findall_words season_pattern text in
  match seasons with
  | [] => entities
  | _ => <["seasons" := map (fun season => mkEntityValue season 0.8) seasons]> entities
  end.

(** The body of the loop over the NER results. *)
Definition add_hit (entities : Entities) (hit : NerHit) : Entities :=
  if PrimFloat.ltb 0.5 (score hit) then
    <[entity hit :=
        (default [] (entities !! entity hit)
           ++ [mkEntityValue (word hit) (score hit)])%list]>
      entities
  else entities.

(** [entity_extractors.get(language, entity_extractors['en'])] *)
Definition extractor_key (language : string) : string :=
  if existsb (String.eqb language) ["hi"; "en"; "kn"] then language else "en".

(** A failing NER call is caught before anything was stored, and the
    pattern extraction that follows it in the [try] block is skipped;
    [d.update(e)] is the union that prefers [e]. *)
Definition _extract_entities (text language intent : string) : Entities :=
  match entity_extractors (extractor_key language) text with
  | Some ner_results =>
      let entities := fold_left add_hit ner_results ∅ in
      _extract_agricultural_entities text language intent ∪ entities
  | None => ∅
  end.

(** No step of the [try] block of [understand] raises, so its handler
    is never entered. *)
Definition understand (text language : string) (context : ConversationContext)
  : string * Entities * float :=
  let cleaned_text := _preprocess_text text language in
  let '(intent, intent_confidence) := _classify_intent cleaned_text language context in
  let entities := _extract_entities cleaned_text language intent in
  let overall_confidence := (intent_confidence * 0.8 + 0.2)%float in
  (intent, entities, overall_confidence).

End Models.

End MultilingualNLU.

(** ** ConversationManager *)

Module ConversationManager.

(** The manager's attributes.  The context objects are reached only
    through the registry, so a method that mutates a context in place
    writes the new value back under its key. *)
Record t : Type := mk {
  active_sessions : gmap string ConversationContext;
  session_timeout : Z
}.

(** [__init__] *)
Definition init : t := {| active_sessions := ∅; session_timeout := 3600 |}.

Definition with_sessions (self : t) (sessions : gmap string ConversationContext) : t :=
  {| active_sessions := sessions; session_timeout := session_timeout self |}.

Definition new_context (user_id session_id language : string) : ConversationContext :=
  {| user_id := user_id;
     session_id := session_id;
     language := language;
     current_intent := "";
     entities := ∅;
     conversation_history := [];
     user_profile := ∅;
     farm_context := ∅ |}.

Definition set_language (context : ConversationContext) (language : string)
  : ConversationContext :=
  {| user_id := user_id context;
     session_id := session_id context;
     language := language;
     current_intent := current_intent context;
     entities := entities context;
     conversation_history := conversation_history context;
     user_profile := user_profile context;
     farm_context := farm_context context |}.

Definition get_or_create_context (self : t) (user_id session_id language : string)
  : ConversationContext * t :=
  match active_sessions self !! session_id with
  | Some context =>
      let context := set_language context language in
      (context, with_sessions self (<[session_id := context]> (active_sessions self)))
  | None =>
      let context := new_context user_id session_id language in
      (context, with_sessions self (<[session_id := context]> (active_sessions self)))
  end.

(** The effect of [update_context] on the context it finds; [now] is the
    reading of [datetime.now()]. *)
Definition record_turn (context : ConversationContext) (intent : string)
    (turn_entities : Entities) (user_input response : string) (now : Z)
  : ConversationContext :=
  {| user_id := user_id context;
     session_id := session_id context;
     language := language context;
     current_intent := intent;
     entities := turn_entities ∪ entities context;
     conversation_history :=
       Py.last_n 10
         (conversation_history context
            ++ [mkTurn now user_input intent turn_entities response])%list;
     user_profile := user_profile context;
     farm_context := farm_context context |}.

Definition update_context (self : t) (session_id intent : string)
    (turn_entities : Entities) (user_input response : string) (now : Z) : t :=
  match active_sessions self !! session_id with
  | Some context =>
      with_sessions self
        (<[session_id :=
             record_turn context intent turn_entities user_input response now]>
           (active_sessions self))
  | None => self
  end.

(** *** Clients of the manager

    A client call together with the clock reading at which it is made.
    [update_context] stores its reading in the history entry;
    [get_or_create_context] never looks at the clock. *)
Inductive call : Type :=
| GetOrCreate (now : Z) (user_id session_id language : string)
| Update (now : Z) (session_id intent : string) (turn_entities : Entities)
         (user_input response : string).

Definition step (self : t) (c : call) : t :=
  match c with
  | GetOrCreate _ user_id session_id language =>
      snd (get_or_create_context self user_id session_id language)
  | Update now session_id intent turn_entities user_input response =>
      update_context self session_id intent turn_entities user_input response now
  end.

Definition run (calls : list call) (self : t) : t := fold_left step calls self.

Definition call_session (c : call) : string :=
  match c with
  | GetOrCreate _ _ session_id _ => session_id
  | Update _ session_id _ _ _ _ => session_id
  end.

Definition call_time (c : call) : Z :=
  match c with
  | GetOrCreate now _ _ _ => now
  | Update now _ _ _ _ _ => now
  end.

(** The history entries the [Update] calls addressed to a session ask
    for, in the order of the calls. *)
Fixpoint turns_of (sid : string) (calls : list call) : list Turn :=
  match calls with
  | [] => []
  | Update now session_id intent turn_entities user_input response :: calls' =>
      if String.eqb session_id sid
      then mkTurn now user_input intent turn_entities response :: turns_of sid calls'
      else turns_of sid calls'
  | GetOrCreate _ _ _ _ :: calls' => turns_of sid calls'
  end.

(** The time of the last call that touched a session. *)
Fixpoint last_access (sid : string) (calls : list call) : option Z :=
  match calls with
  | [] => None
  | c :: calls' =>
      match last_access sid calls' with
      | Some time => Some time
      | None => if String.eqb (call_session c) sid then Some (call_time c) else None
      end
  end.

(** A registry as the manager builds it: every context is stored under
    its own session id and holds at most ten history entries. *)
Definition well_formed (self : t) : Prop :=
  forall (sid : string) (context : ConversationContext),
    active_sessions self !! sid = Some context ->
    session_id context = sid /\ length (conversation_history context) <= 10.

End ConversationManager.

(** ** VoiceProcessingSystem *)

Module VoiceProcessingSystem.

Definition response_templates : list (string * list (string * string)) :=
  [ ("greeting",
      [ ("hi", "नमस्ते! मैं हसिरु मित्र हूँ। आपकी खेती में कैसे मदद कर सकती हूँ?");
        ("en", "Hello! I am Hasiru Mitra. How can I help you with your farming today?");
        ("kn", "ನಮಸ್ಕಾರ! ನಾನು ಹಸಿರು ಮಿತ್ರ. ನಿಮ್ಮ ಕೃಷಿಯಲ್ಲಿ ನಾನು ಹೇಗೆ ಸಹಾಯ ಮಾಡಬಹುದು?") ]);
    ("crop_advice",
      [ ("hi", "आपकी फसल के बारे में मुझे बताएं। कौन सी फसल उगाना चाहते हैं?");
        ("en", "Tell me about your crop. Which crop do you want to grow?");
        ("kn", "ನಿಮ್ಮ ಬೆಳೆಯ ಬಗ್ಗೆ ಹೇಳಿ. ಯಾವ ಬೆಳೆ ಬೆಳೆಯಲು ಬಯಸುತ್ತೀರಿ?") ]);
    ("pest_disease",
      [ ("hi", "आपकी फसल में क्या समस्या है? कृपया विस्तार से बताएं।");
        ("en", "What problem are you facing with your crop? Please describe in detail.");
        ("kn", "ನಿಮ್ಮ ಬೆಳೆಯಲ್ಲಿ ಏನು ಸಮಸ್ಯೆ ಇದೆ? ದಯವಿಟ್ಟು ವಿಸ್ತಾರವಾಗಿ ಹೇಳಿ.") ]);
    ("error",
      [ ("hi", "माफ़ करें, मुझे समझने में कठिनाई हुई। कृपया फिर से बताएं।");
        ("en", "Sorry, I had difficulty understanding. Please tell me again.");
        ("kn", "ಕ್ಷಮಿಸಿ, ನನಗೆ ಅರ್ಥಮಾಡಿಕೊಳ್ಳುವಲ್ಲಿ ಕಷ್ಟವಾಯಿತು. ದಯವಿಟ್ಟು ಮತ್ತೆ ಹೇಳಿ.") ]) ].

(** [self.response_templates[name][language]] *)
Definition template (name language : string) : Py.result string :=
  Py.bind (Py.getitem response_templates name)
          (fun by_language => Py.getitem by_language language).

Definition crop_advice_responses (crop : string) : list (string * string) :=
  [ ("hi", crop +:+ " की खेती के लिए सबसे पहले मिट्टी की जांच कराएं। उचित बीज का चयन करें।");
    ("en", "For " +:+ crop +:+ " cultivation, first get your soil tested. Choose appropriate seeds.");
    ("kn", crop +:+ " ಬೆಳವಣಿಗೆಗಾಗಿ, ಮೊದಲು ನಿಮ್ಮ ಮಣ್ಣಿನ ಪರೀಕ್ಷೆ ಮಾಡಿಸಿ. ಸೂಕ್ತವಾದ ಬೀಜಗಳನ್ನು ಆಯ್ಕೆಮಾಡಿ.") ].

Definition pest_responses : list (string * string) :=
  [ ("hi", "कीट या रोग की पहचान के लिए पत्तियों की तस्वीर भेजें। तब तक नीम का तेल छिड़कें।");
    ("en", "Send photos of leaves for pest/disease identification. Meanwhile, spray neem oil.");
    ("kn", "ಕೀಟ ಅಥವಾ ರೋಗ ಗುರುತಿಸಲು ಎಲೆಗಳ ಫೋಟೋ ಕಳುಹಿಸಿ. ಅಷ್ಟರಲ್ಲಿ ಬೇವಿನ ಎಣ್ಣೆ ಸಿಂಪಡಿಸಿ.") ].

Definition weather_responses : list (string * string) :=
  [ ("hi", "मौसम की जानकारी के लिए आपका स्थान बताएं। बारिश से पहले फसल की सुरक्षा करें।");
    ("en", "Tell me your location for weather information. Protect crops before rain.");
    ("kn", "ಹವಾಮಾನ ಮಾಹಿತಿಗಾಗಿ ನಿಮ್ಮ ಸ್ಥಳವನ್ನು ಹೇಳಿ. ಮಳೆಯ ಮೊದಲು ಬೆಳೆಗಳನ್ನು ರಕ್ಷಿಸಿ.") ].

Definition market_responses : list (string * string) :=
  [ ("hi", "बाजार भाव जानने के लिए फसल का नाम बताएं। आज के रेट देख सकते हैं।");
    ("en", "Tell me the crop name to know market rates. You can check today's prices.");
    ("kn", "ಮಾರುಕಟ್ಟೆ ದರಗಳನ್ನು ತಿಳಿಯಲು ಬೆಳೆಯ ಹೆಸರು ಹೇಳಿ. ಇಂದಿನ ಬೆಲೆಗಳನ್ನು ನೋಡಬಹುದು.") ].

Definition general_responses : list (string * string) :=
  [ ("hi", "मैं आपकी खेती में मदद के लिए यहाँ हूँ। फसल, कीट, मौसम या बाजार के बारे में पूछ सकते हैं।");
    ("en", "I am here to help with your farming. You can ask about crops, pests, weather, or market.");
    ("kn", "ನಾನು ನಿಮ್ಮ ಕೃಷಿಗೆ ಸಹಾಯ ಮಾಡಲು ಇಲ್ಲಿದ್ದೇನೆ. ಬೆಳೆ, ಕೀಟ, ಹವಾಮಾನ ಅಥವಾ ಮಾರುಕಟ್ಟೆ ಬಗ್ಗೆ ಕೇಳಬಹುದು.") ].

(** [responses.get(language, responses['en'])] *)
Definition localized (responses : list (string * string)) (language : string) : string :=
  Py.get responses language (Py.get responses "en" "").

Definition _generate_crop_advice_response (entities : Entities)
    (context : ConversationContext) (language : string) : Py.result string :=
  match entities !! "crops" with
  | Some crops =>
      match crops with
      | first :: _ => Py.Ok (localized (crop_advice_responses (value first)) language)
      | [] => Py.Raise Py.IndexError
      end
  | None => template "crop_advice" language
  end.

Definition _generate_pest_response (entities : Entities)
    (context : ConversationContext) (language : string) : Py.result string :=
  Py.Ok (localized pest_responses language).

Definition _generate_weather_response (entities : Entities)
    (context : ConversationContext) (language : string) : Py.result string :=
  Py.Ok (localized weather_responses language).

Definition _generate_market_response (entities : Entities)
    (context : ConversationContext) (language : string) : Py.result string :=
  Py.Ok (localized market_responses language).

Definition _generate_general_response (entities : Entities)
    (context : ConversationContext) (language : string) : Py.result string :=
  Py.Ok (localized general_responses language).

(** [not context.conversation_history] *)
Definition no_history (context : ConversationContext) : bool :=
  match conversation_history context with
  | [] => true
  | _ :: _ => false
  end.

Definition _generate_response (intent : string) (entities : Entities)
    (context : ConversationContext) (language : string) : Py.result string :=
  if String.eqb intent "greeting" || no_history context then
    template "greeting" language
  else if String.eqb intent "crop_advice" then
    _generate_crop_advice_response entities context language
  else if String.eqb intent "pest_disease" then
    _generate_pest_response entities context language
  else if String.eqb intent "weather" then
    _generate_weather_response entities context language
  else if String.eqb intent "market_price" then
    _generate_market_response entities context language
  else
    _generate_general_response entities context language.


(** The error message is logged by the caller and is not part of the
    response. *)
Definition _create_error_response (error_message language : string) : VoiceResponse :=
  let error_text :=
    Py.get (Py.get response_templates "error" []) language
           (Py.get (Py.get response_templates "error" []) "en" "") in
  {| transcribed_text := "";
     detected_language := language;
     intent := "error";
     vr_entities := ∅;
     response_text := error_text;
     response_audio_url := "";
     confidence_score := 0.0;
     processing_time_ms := 0;
     context_updated := None |}.

(** The readings of [datetime.now()] one request consumes: the rendering
    [f"session_{...timestamp()}"] used when the call has no id, the
    timestamp of the history entry, and the elapsed milliseconds. *)
Record Clock : Type := mkClock {
  session_stamp : string;
  update_time : Z;
  elapsed_ms : Z
}.

Section Pipeline.

Variable langdetect : string -> option string.
Variable AudioArray : Type.
Variable preprocess_audio : string -> option AudioArray.
Variable whisper_generate :
  AudioArray -> option string -> option (string * list float).
Variable np_mean : list float -> float.
Variable azure_speech_key : option string.
Variable azure_recognize_once :
  string -> string -> option MultilingualASR.recognition.
Variable intent_classifier : string -> option string.
Variable entity_extractors :
  string -> string -> option (list MultilingualNLU.NerHit).
Variable unicode_sub_words : list string -> string -> string.
Variable unicode_findall_words : list string -> string -> list string.
Variable unicode_text : UnicodeText.

Definition asr_transcribe : string -> string -> string * string * float :=
  MultilingualASR.transcribe langdetect AudioArray preprocess_audio
    whisper_generate np_mean azure_speech_key azure_recognize_once.

Definition nlu_understand
  : string -> string -> ConversationContext -> string * Entities * float :=
  MultilingualNLU.understand intent_classifier entity_extractors
    unicode_sub_words unicode_findall_words unicode_text.

(** One request, with the conversation manager threaded through.  The
    synthesised audio is not part of the response (its url is left
    empty) and [synthesize] does not raise, so step 5 has no effect
    here.  [context_updated] is the context object itself, read after
    [update_context] has mutated it. *)
Definition process_voice_input (manager : ConversationManager.t)
    (voice_input : VoiceInput) (clock : Clock)
  : VoiceResponse * ConversationManager.t :=
  let '(transcribed_text, detected_language, transcription_confidence) :=
    asr_transcribe (audio_data voice_input)
                   (Py.or_default (language_hint voice_input) "auto") in
  if negb (Py.truthy transcribed_text) then
    (_create_error_response "Transcription failed" detected_language, manager)
  else
    let sid := Py.or_default (call_sid voice_input) (session_stamp clock) in
    let '(context, manager) :=
      ConversationManager.get_or_create_context manager
        (Py.or_default (vi_user_id voice_input) "anonymous") sid detected_language in
    let '(intent, entities, nlu_confidence) :=
      nlu_understand transcribed_text detected_language context in
    match _generate_response intent entities context detected_language with
    | Py.Raise e =>
        (_create_error_response "" (Py.or_default (language_hint voice_input) "en"),
         manager)
    | Py.Ok response_text =>
        let manager :=
          ConversationManager.update_context manager (session_id context)
            intent entities transcribed_text response_text (update_time clock) in
        let overall_confidence :=
          ((transcription_confidence + nlu_confidence) / 2)%float in
        ({| transcribed_text := transcribed_text;
            detected_language := detected_language;
            intent := intent;
            vr_entities := entities;
            response_text := response_text;
            response_audio_url := "";
            confidence_score := overall_confidence;
            processing_time_ms := elapsed_ms clock;
            context_updated :=
              ConversationManager.active_sessions manager !! sid |},
         manager)
    end.

End Pipeline.

End VoiceProcessingSystem.

(** ** The pest scenario

    A request on a fresh manager whose audio the primary engine transcribes,
    with confidence 0.9, as the sentence of the scenario; the NER pipeline
    answers and finds nothing, and the secondary engine is not configured. *)

Module Scenario.

Definition sentence : string := "I need help with pest damage on my tomato".

(** A stand-in for the library's Unicode functions; the scenarios run on
    ASCII text and do not call it. *)
Definition unicode : UnicodeText :=
  {| unicode_strip := fun text => text;
     unicode_collapse_blanks := fun text => text;
     unicode_lower := fun text => text;
     unicode_findall_quantities := fun _ _ => [] |}.

Definition request : VoiceInput :=
  {| audio_data := "audio";
     language_hint := None;
     vi_user_id := Some "farmer";
     vi_context := None;
     call_sid := Some "call-1" |}.

Definition clock : VoiceProcessingSystem.Clock :=
  VoiceProcessingSystem.mkClock "session_0.0" 0 12.

Definition respond (manager : ConversationManager.t)
  : VoiceResponse * ConversationManager.t :=
  VoiceProcessingSystem.process_voice_input
    (fun _ => None) unit (fun _ => Some tt) (fun _ _ => Some (sentence, [0.9%float]))
    (fun _ => 0.9%float) None (fun _ _ => None)
    (fun _ => None) (fun _ _ => Some []) (fun _ text => text) (fun _ _ => []) Scenario.unicode
    manager request clock.

End Scenario.

Example findall_crops_example :
  AsciiText.findall_words ["rice"; "wheat"; "tomato"] "my tomato and rice, not tomatoes" =
  ["tomato"; "rice"].
Proof. reflexivity. Qed.

Example findall_quantities_example :
  AsciiText.findall_quantities ["kg"; "acre"] "12.5 kg on 3acre, 4. kg and 7 x" =
  [("12.5", "kg"); ("3", "acre")].
Proof. reflexivity. Qed.

Example preprocess_example :
  AsciiText.lower (AsciiText.collapse_blanks false (AsciiText.strip "  I  need   Help ")) = "i need help".
Proof. reflexivity. Qed.

(** * Properties *)

(** ** Language detection *)

Section DetectorProperties.

Variable langdetect : string -> option string.

Lemma first_keyword_hit_split (earlier later : list (string * list string))
    (L : string) (keywords : list string) (text : string) :
  PyStr.any_in keywords text = true ->
  (forall L' keywords', In (L', keywords') earlier ->
     PyStr.any_in keywords' text = false) ->
  LanguageDetector.first_keyword_hit (earlier ++ (L, keywords) :: later)%list text = Some L.
Proof.
  intros Hhit Hearlier.
  induction earlier as [|[L0 kws0] earlier IH]; simpl.
  - now rewrite Hhit.
  - rewrite (Hearlier L0 kws0) by now left.
    apply IH. intros L' kws' Hin. apply (Hearlier L' kws'). now right.
Qed.

Lemma detect_language_audio_irrelevant (text : string) (audio : option (list float)) :
  LanguageDetector.detect_language langdetect text audio =
  LanguageDetector._detect_from_text langdetect text.
Proof. destruct audio; reflexivity. Qed.

(** C9, as amended: the detector answers the first language of the fixed
    order hi, en, kn that has a keyword in the text.  So it answers [L] when
    the text holds a keyword of [L] and none of a language placed before
    [L], and the answer is the same with and without audio features. *)
Theorem detect_language_first_language_with_keyword
    (earlier later : list (string * list string)) (L : string)
    (keywords : list string) (text : string) :
  LanguageDetector.language_keywords = (earlier ++ (L, keywords) :: later)%list ->
  PyStr.any_in keywords text = true ->
  (forall L' keywords', In (L', keywords') earlier ->
     PyStr.any_in keywords' text = false) ->
  forall audio : option (list float),
    LanguageDetector.detect_language langdetect text audio = L.
Proof.
  intros Htable Hhit Hearlier audio.
  rewrite detect_language_audio_irrelevant.
  unfold LanguageDetector._detect_from_text.
  rewrite Htable.
  now rewrite (first_keyword_hit_split earlier later L keywords text Hhit Hearlier).
Qed.

End DetectorProperties.

Lemma detect_language_first_language_with_keyword_witness :
  PyStr.any_in LanguageDetector.en_keywords "my crop needs ನೀರು" = true /\
  LanguageDetector.detect_language (fun _ => Some "kn") "my crop needs ನೀರು" None = "en" /\
  LanguageDetector.detect_language (fun _ => Some "kn") "my crop needs ನೀರು" (Some []) = "en".
Proof.
  assert (Hall : forall audio : option (list float),
             LanguageDetector.detect_language (fun _ => Some "kn")
               "my crop needs ನೀರು" audio = "en").
  { apply (detect_language_first_language_with_keyword (fun _ => Some "kn")
             [("hi", LanguageDetector.hi_keywords)]
             [("kn", LanguageDetector.kn_keywords)]
             "en" LanguageDetector.en_keywords).
    - reflexivity.
    - reflexivity.
    - intros L' keywords' [Heq | []]. inversion Heq. reflexivity. }
  split; [reflexivity | split; apply Hall].
Defined.

(** C9 as stated fails: the text below holds the English keyword [crop],
    yet the detector answers [hi], because a Hindi keyword occurs too and
    Hindi is tried first. *)
Lemma detect_language_keyword_not_decisive :
  PyStr.any_in LanguageDetector.en_keywords "crop फसल" = true /\
  LanguageDetector.detect_language (fun _ => None) "crop फसल" None <> "en" /\
  LanguageDetector.detect_language (fun _ => None) "crop फसल" (Some []) <> "en".
Proof. repeat split; try reflexivity; vm_compute; discriminate. Qed.

(** ** Speech-to-text *)

Section TranscribeProperties.

Variable langdetect : string -> option string.
Variable AudioArray : Type.
Variable preprocess_audio : string -> option AudioArray.
Variable whisper_generate : AudioArray -> option string -> option (string * list float).
Variable np_mean : list float -> float.

(** A successful call went through both primary steps, and its language
    and one of the two candidate (text, confidence) pairs come out. *)
Lemma transcribe_try_inv (azure_speech_key : option string)
    (azure_recognize_once : string -> string -> option MultilingualASR.recognition)
    (audio_data language_hint text lang : string) (conf : float) :
  MultilingualASR.transcribe_try langdetect AudioArray preprocess_audio whisper_generate
    np_mean azure_speech_key azure_recognize_once audio_data language_hint
  = Some (text, lang, conf) ->
  exists audio_array primary_text primary_conf,
    preprocess_audio audio_data = Some audio_array /\
    MultilingualASR._whisper_transcribe langdetect AudioArray whisper_generate np_mean
      audio_array language_hint = Some (primary_text, lang, primary_conf) /\
    ((text, conf) = (primary_text, primary_conf) \/
     (text, conf) =
       MultilingualASR._azure_transcribe azure_recognize_once audio_data lang).
Proof.
  unfold MultilingualASR.transcribe_try.
  destruct (preprocess_audio audio_data) as [audio_array|]; [|discriminate].
  destruct (MultilingualASR._whisper_transcribe _ _ _ _ audio_array language_hint)
    as [[[ptext plang] pconf]|] eqn:Hwhisper; [|discriminate].
  intros H. exists audio_array, ptext, pconf.
  destruct (PrimFloat.ltb pconf 0.7 && Py.truthy_opt azure_speech_key).
  - destruct (MultilingualASR._azure_transcribe azure_recognize_once audio_data plang)
      as [atext aconf] eqn:Hazure.
    destruct (PrimFloat.ltb pconf aconf); inversion H; subst.
    + rewrite Hazure. repeat split; auto.
    + repeat split; auto.
  - inversion H; subst. repeat split; auto.
Qed.

Lemma whisper_transcribe_language (audio_array : AudioArray)
    (language_hint text lang : string) (conf : float) :
  MultilingualASR._whisper_transcribe langdetect AudioArray whisper_generate np_mean
    audio_array language_hint = Some (text, lang, conf) ->
  lang = LanguageDetector.detect_language langdetect text None.
Proof.
  unfold MultilingualASR._whisper_transcribe.
  destruct (whisper_generate audio_array _) as [[transcription scores]|]; [|discriminate].
  intros H. inversion H; subst. reflexivity.
Qed.

(** C10: a call of [transcribe] that succeeds (its [try] block completes
    with a triple) returns that triple, and its language is the one the
    detector computed from the primary engine's own transcription.  The
    returned text and confidence are either the primary pair or the pair
    the secondary engine produced for that language; the language is the
    same in both cases and is never derived from the secondary text. *)
Theorem transcribe_language_is_primary_detection
    (azure_speech_key : option string)
    (azure_recognize_once : string -> string -> option MultilingualASR.recognition)
    (audio_data language_hint text lang : string) (conf : float) :
  MultilingualASR.transcribe_try langdetect AudioArray preprocess_audio whisper_generate
    np_mean azure_speech_key azure_recognize_once audio_data language_hint
  = Some (text, lang, conf) ->
  MultilingualASR.transcribe langdetect AudioArray preprocess_audio whisper_generate
    np_mean azure_speech_key azure_recognize_once audio_data language_hint
  = (text, lang, conf) /\
  exists audio_array primary_text scores,
    preprocess_audio audio_data = Some audio_array /\
    whisper_generate audio_array (MultilingualASR.forced_language language_hint)
      = Some (primary_text, scores) /\
    lang = LanguageDetector.detect_language langdetect primary_text None /\
    ((text, conf) =
       (primary_text, MultilingualASR._calculate_whisper_confidence np_mean scores) \/
     (text, conf) =
       MultilingualASR._azure_transcribe azure_recognize_once audio_data lang).
Proof.
  intros H. split.
  { unfold MultilingualASR.transcribe. now rewrite H. }
  destruct (transcribe_try_inv _ _ _ _ _ _ _ H)
    as (audio_array & ptext & pconf & Hpre & Hwhisper & Hpair).
  pose proof (whisper_transcribe_language _ _ _ _ _ Hwhisper) as Hlang.
  unfold MultilingualASR._whisper_transcribe in Hwhisper.
  destruct (whisper_generate audio_array _) as [[transcription scores]|] eqn:Hgen;
    [|discriminate].
  inversion Hwhisper; subst ptext pconf.
  exists audio_array, transcription, scores.
  repeat split; try assumption.
  congruence.
Qed.

(** C8: when the primary engine's confidence is 0.5, a secondary engine is
    configured and it answers with confidence 0.85, [transcribe] returns the
    secondary text with confidence 0.85 (and the language detected from the
    primary text). *)
Theorem transcribe_prefers_confident_secondary
    (azure_speech_key : option string)
    (azure_recognize_once : string -> string -> option MultilingualASR.recognition)
    (audio_data language_hint : string) (audio_array : AudioArray)
    (primary_text : string) (scores : list float) (azure_text : string) :
  preprocess_audio audio_data = Some audio_array ->
  whisper_generate audio_array (MultilingualASR.forced_language language_hint)
    = Some (primary_text, scores) ->
  MultilingualASR._calculate_whisper_confidence np_mean scores = 0.5%float ->
  Py.truthy_opt azure_speech_key = true ->
  MultilingualASR._azure_transcribe azure_recognize_once audio_data
    (LanguageDetector.detect_language langdetect primary_text None)
    = (azure_text, 0.85%float) ->
  MultilingualASR.transcribe langdetect AudioArray preprocess_audio whisper_generate
    np_mean azure_speech_key azure_recognize_once audio_data language_hint
  = (azure_text, LanguageDetector.detect_language langdetect primary_text None,
     0.85%float).
Proof.
  intros Hpre Hgen Hconf Hkey Hazure.
  unfold MultilingualASR.transcribe, MultilingualASR.transcribe_try,
    MultilingualASR._whisper_transcribe.
  rewrite Hpre, Hgen, Hconf, Hkey, Hazure.
  reflexivity.
Qed.

End TranscribeProperties.

(** A primary engine whose generation carries no scores (confidence 0.5),
    and a secondary engine that recognises a sentence of 35 characters
    (confidence min(0.9, 35/100 + 0.5) = 0.85). *)
Lemma transcribe_prefers_confident_secondary_witness :
  MultilingualASR.transcribe (fun _ => None) unit (fun _ => Some tt)
    (fun _ _ => Some ("my crop", [])) (fun _ => 0.0%float) (Some "key")
    (fun _ _ => Some (MultilingualASR.RecognizedSpeech
                        "my crop has a pest on all its leafs"))
    "audio" "auto"
  = ("my crop has a pest on all its leafs", "en", 0.85%float).
Proof.
  apply (transcribe_prefers_confident_secondary (fun _ => None) unit (fun _ => Some tt)
           (fun _ _ => Some ("my crop", [])) (fun _ => 0.0%float) (Some "key")
           (fun _ _ => Some (MultilingualASR.RecognizedSpeech
                               "my crop has a pest on all its leafs"))
           "audio" "auto" tt "my crop" [] "my crop has a pest on all its leafs").
  - reflexivity.
  - reflexivity.
  - reflexivity.
  - reflexivity.
  - vm_compute. reflexivity.
Defined.

(** The primary engine hears a Hindi sentence with no scores (confidence
    0.5); the secondary engine answers an English sentence of 25
    characters (confidence 0.75), which replaces the text; the language
    stays the Hindi detected from the primary text. *)
Lemma transcribe_language_is_primary_detection_witness :
  MultilingualASR.transcribe (fun _ => None) unit (fun _ => Some tt)
    (fun _ _ => Some ("फसल में रोग", [])) (fun _ => 0.0%float) (Some "key")
    (fun _ _ => Some (MultilingualASR.RecognizedSpeech "my crops have pest damage"))
    "audio" "auto"
  = ("my crops have pest damage", "hi", 0.75%float) /\
  exists (audio_array : unit) (primary_text : string) (scores : list float),
    Some tt = Some audio_array /\
    Some ("फसल में रोग", []) = Some (primary_text, scores) /\
    "hi" = LanguageDetector.detect_language (fun _ => None) primary_text None /\
    (("my crops have pest damage", 0.75%float) =
       (primary_text,
        MultilingualASR._calculate_whisper_confidence (fun _ => 0.0%float) scores) \/
     ("my crops have pest damage", 0.75%float) =
       MultilingualASR._azure_transcribe
         (fun _ _ => Some (MultilingualASR.RecognizedSpeech "my crops have pest damage"))
         "audio" "hi").
Proof.
  apply (transcribe_language_is_primary_detection (fun _ => None) unit (fun _ => Some tt)
           (fun _ _ => Some ("फसल में रोग", [])) (fun _ => 0.0%float) (Some "key")
           (fun _ _ => Some (MultilingualASR.RecognizedSpeech "my crops have pest damage"))
           "audio" "auto" "my crops have pest damage" "hi" 0.75%float).
  vm_compute. reflexivity.
Defined.

(** ** Conversation contexts *)

Section ManagerProperties.

Import ConversationManager.

Lemma last_n_length {A} (n : nat) (l : list A) :
  length (Py.last_n n l) = Nat.min (length l) n.
Proof. unfold Py.last_n. rewrite length_drop. lia. Qed.

Lemma last_n_short {A} (n : nat) (l : list A) :
  length l <= n -> Py.last_n n l = l.
Proof.
  intros H. unfold Py.last_n.
  replace (length l - n) with 0 by lia. reflexivity.
Qed.

(** Truncating early does not change what the last [n] elements are. *)
Lemma last_n_app {A} (n : nat) (l l' : list A) :
  Py.last_n n (Py.last_n n l ++ l') = Py.last_n n (l ++ l').
Proof.
  destruct (Nat.le_gt_cases (length l) n) as [Hle | Hgt].
  - now rewrite (last_n_short n l).
  - unfold Py.last_n at 1 3.
    rewrite !length_app, last_n_length.
    unfold Py.last_n.
    replace (Nat.min (length l) n + length l' - n) with (length l') by lia.
    replace (length l + length l' - n) with ((length l - n) + length l') by lia.
    rewrite <- drop_drop.
    rewrite (drop_app_le l l' (length l - n)) by lia.
    reflexivity.
Qed.

Lemma turns_of_app (sid : string) (calls calls' : list call) :
  turns_of sid (calls ++ calls') = (turns_of sid calls ++ turns_of sid calls')%list.
Proof.
  induction calls as [|c calls IH]; [reflexivity|].
  destruct c as [now uid s lang | now s intent te ui resp]; simpl.
  - apply IH.
  - destruct (String.eqb s sid); simpl; now rewrite IH.
Qed.

(** What one client call does to a registered session: the context stays
    registered under its key, keeps its owner, and its history grows by the
    entry the call asks for, if any, cut to the last ten. *)
Lemma step_registered (self : t) (c : call) (sid : string) (ctx : ConversationContext) :
  active_sessions self !! sid = Some ctx ->
  length (conversation_history ctx) <= 10 ->
  exists ctx',
    active_sessions (step self c) !! sid = Some ctx' /\
    conversation_history ctx' =
      Py.last_n 10 (conversation_history ctx ++ turns_of sid [c]) /\
    user_id ctx' = user_id ctx /\
    session_id ctx' = session_id ctx.
Proof.
  intros Hreg Hlen.
  destruct c as [now uid s lang | now s intent te ui resp]; simpl.
  - rewrite app_nil_r, last_n_short by assumption.
    unfold get_or_create_context.
    destruct (String.eqb_spec s sid) as [-> | Hne].
    + rewrite Hreg. simpl. rewrite lookup_insert_eq.
      eexists. split; [reflexivity|]. simpl. auto.
    + destruct (active_sessions self !! s); simpl;
        rewrite lookup_insert_ne by assumption; eauto.
  - unfold update_context.
    destruct (String.eqb_spec s sid) as [-> | Hne].
    + rewrite Hreg. simpl. rewrite lookup_insert_eq.
      eexists. split; [reflexivity|]. simpl. auto.
    + rewrite app_nil_r, last_n_short by assumption.
      destruct (active_sessions self !! s); simpl;
        [rewrite lookup_insert_ne by assumption|]; eauto.
Qed.

Lemma run_registered (calls : list call) :
  forall (self : t) (sid : string) (ctx : ConversationContext),
    active_sessions self !! sid = Some ctx ->
    length (conversation_history ctx) <= 10 ->
    exists ctx',
      active_sessions (run calls self) !! sid = Some ctx' /\
      conversation_history ctx' =
        Py.last_n 10 (conversation_history ctx ++ turns_of sid calls) /\
      user_id ctx' = user_id ctx /\
      session_id ctx' = session_id ctx.
Proof.
  induction calls as [|c calls IH]; intros self sid ctx Hreg Hlen.
  - exists ctx. simpl. rewrite app_nil_r, last_n_short by assumption. auto.
  - destruct (step_registered self c sid ctx Hreg Hlen)
      as (ctx1 & Hreg1 & Hhist1 & Huser1 & Hsid1).
    assert (Hlen1 : length (conversation_history ctx1) <= 10).
    { rewrite Hhist1, last_n_length. lia. }
    destruct (IH (step self c) sid ctx1 Hreg1 Hlen1)
      as (ctx' & Hreg' & Hhist' & Huser' & Hsid').
    exists ctx'. split; [exact Hreg'|]. split.
    + rewrite Hhist', Hhist1, last_n_app, <- app_assoc, <- turns_of_app.
      reflexivity.
    + split; congruence.
Qed.

(** C6: from the moment a session is registered with an empty history,
    after any sequence of client calls, [N] of which are updates of that
    session, its history is the last min(N, 10) of the entries those
    updates asked for, in the order of the calls. *)
Theorem history_keeps_last_ten_turns (calls : list call) (self : t) (sid : string)
    (ctx : ConversationContext) :
  active_sessions self !! sid = Some ctx ->
  conversation_history ctx = [] ->
  exists ctx',
    active_sessions (run calls self) !! sid = Some ctx' /\
    conversation_history ctx' = Py.last_n 10 (turns_of sid calls) /\
    length (conversation_history ctx') = Nat.min (length (turns_of sid calls)) 10.
Proof.
  intros Hreg Hempty.
  destruct (run_registered calls self sid ctx Hreg) as (ctx' & Hreg' & Hhist' & _).
  { rewrite Hempty. simpl. lia. }
  rewrite Hempty in Hhist'. simpl in Hhist'.
  exists ctx'. split; [exact Hreg'|]. split; [exact Hhist'|].
  rewrite Hhist'. apply last_n_length.
Qed.

(** C7: updating a session id that is not registered leaves the manager
    as it was: same registry, same contexts, no new session. *)
Theorem update_context_unknown_session (self : t) (sid intent : string)
    (turn_entities : Entities) (user_input response : string) (now : Z) :
  active_sessions self !! sid = None ->
  update_context self sid intent turn_entities user_input response now = self.
Proof. intros H. unfold update_context. now rewrite H. Qed.

(** C2, as amended: [update_context] merges with [dict.update].  For a key
    the turn's entities carry, the turn's list of values takes the place of
    the accumulated one; the keys the turn does not carry keep their
    values. *)
Theorem update_context_entities_overwritten (self : t) (sid intent : string)
    (turn_entities : Entities) (user_input response : string) (now : Z)
    (ctx : ConversationContext) :
  active_sessions self !! sid = Some ctx ->
  exists ctx',
    active_sessions
      (update_context self sid intent turn_entities user_input response now) !! sid
    = Some ctx' /\
    forall key : string,
      entities ctx' !! key =
      match turn_entities !! key with
      | Some values => Some values
      | None => entities ctx !! key
      end.
Proof.
  intros Hreg. unfold update_context. rewrite Hreg. simpl.
  rewrite lookup_insert_eq. eexists. split; [reflexivity|].
  intros key. simpl. rewrite lookup_union.
  destruct (turn_entities !! key), (entities ctx !! key); reflexivity.
Qed.

(** C3, as amended: the manager keeps no access time and never reads
    [session_timeout].  Whatever calls were made since a session was
    registered, at whatever times, the next lookup finds it and returns the
    stored context with its accumulated history and its owner, only the
    language refreshed; the registry keeps that context. *)
Theorem get_or_create_context_returns_stored (calls : list call) (self : t)
    (sid : string) (ctx : ConversationContext) (uid lang : string) :
  active_sessions self !! sid = Some ctx ->
  length (conversation_history ctx) <= 10 ->
  exists stored,
    active_sessions (run calls self) !! sid = Some stored /\
    get_or_create_context (run calls self) uid sid lang
    = (set_language stored lang,
       with_sessions (run calls self)
         (<[sid := set_language stored lang]> (active_sessions (run calls self)))) /\
    conversation_history stored =
      Py.last_n 10 (conversation_history ctx ++ turns_of sid calls) /\
    user_id stored = user_id ctx.
Proof.
  intros Hreg Hlen.
  destruct (run_registered calls self sid ctx Hreg Hlen)
    as (stored & Hreg' & Hhist' & Huser' & _).
  exists stored. split; [exact Hreg'|]. split; [|split; assumption].
  unfold get_or_create_context. now rewrite Hreg'.
Qed.

End ManagerProperties.

Section ManagerExamples.

Import ConversationManager.

(** Twelve updates of a session registered just before: the first two
    entries are gone and ten remain. *)
Lemma history_keeps_last_ten_turns_witness :
  exists ctx',
    active_sessions
      (run (map (fun n => Update n "call-1" "weather" ∅ "will it rain" "Tell me")
                [1; 2; 3; 4; 5; 6; 7; 8; 9; 10; 11; 12]%Z)
           (run [GetOrCreate 0 "farmer" "call-1" "en"] init)) !! "call-1" = Some ctx' /\
    conversation_history ctx' =
      Py.last_n 10
        (turns_of "call-1"
           (map (fun n => Update n "call-1" "weather" ∅ "will it rain" "Tell me")
                [1; 2; 3; 4; 5; 6; 7; 8; 9; 10; 11; 12]%Z)) /\
    length (conversation_history ctx') =
      Nat.min
        (length
           (turns_of "call-1"
              (map (fun n => Update n "call-1" "weather" ∅ "will it rain" "Tell me")
                   [1; 2; 3; 4; 5; 6; 7; 8; 9; 10; 11; 12]%Z)))
        10.
Proof.
  apply (history_keeps_last_ten_turns
           (map (fun n => Update n "call-1" "weather" ∅ "will it rain" "Tell me")
                [1; 2; 3; 4; 5; 6; 7; 8; 9; 10; 11; 12]%Z)
           (run [GetOrCreate 0 "farmer" "call-1" "en"] init) "call-1"
           (new_context "farmer" "call-1" "en")).
  - vm_compute. reflexivity.
  - reflexivity.
Defined.

Example history_of_twelve_updates :
  option_map (fun ctx => map turn_timestamp (conversation_history ctx))
    (active_sessions
       (run (map (fun n => Update n "call-1" "weather" ∅ "will it rain" "Tell me")
                 [1; 2; 3; 4; 5; 6; 7; 8; 9; 10; 11; 12]%Z)
            (run [GetOrCreate 0 "farmer" "call-1" "en"] init)) !! "call-1")
  = Some [3; 4; 5; 6; 7; 8; 9; 10; 11; 12]%Z.
Proof. vm_compute. reflexivity. Qed.

Lemma update_context_unknown_session_witness :
  update_context (run [GetOrCreate 0 "farmer" "call-1" "en"] init)
    "call-2" "weather" ∅ "will it rain" "Tell me" 3
  = run [GetOrCreate 0 "farmer" "call-1" "en"] init.
Proof.
  apply (update_context_unknown_session
           (run [GetOrCreate 0 "farmer" "call-1" "en"] init)
           "call-2" "weather" ∅ "will it rain" "Tell me" 3).
  vm_compute. reflexivity.
Defined.

Lemma update_context_entities_overwritten_witness :
  exists ctx',
    active_sessions
      (update_context
         (run [GetOrCreate 0 "farmer" "call-1" "en";
               Update 1 "call-1" "crop_advice"
                 {[ "crops" := [mkEntityValue "rice" 0.8];
                    "seasons" := [mkEntityValue "kharif" 0.8] ]}
                 "rice in kharif" "Hello"] init)
         "call-1" "crop_advice" {[ "crops" := [mkEntityValue "wheat" 0.8] ]}
         "and wheat" "For wheat" 2) !! "call-1" = Some ctx' /\
    forall key : string,
      entities ctx' !! key =
      match ({[ "crops" := [mkEntityValue "wheat" 0.8] ]} : Entities) !! key with
      | Some values => Some values
      | None =>
          entities
            (record_turn (new_context "farmer" "call-1" "en") "crop_advice"
               {[ "crops" := [mkEntityValue "rice" 0.8];
                  "seasons" := [mkEntityValue "kharif" 0.8] ]}
               "rice in kharif" "Hello" 1) !! key
      end.
Proof.
  apply (update_context_entities_overwritten
           (run [GetOrCreate 0 "farmer" "call-1" "en";
                 Update 1 "call-1" "crop_advice"
                   {[ "crops" := [mkEntityValue "rice" 0.8];
                      "seasons" := [mkEntityValue "kharif" 0.8] ]}
                   "rice in kharif" "Hello"] init)
           "call-1" "crop_advice" {[ "crops" := [mkEntityValue "wheat" 0.8] ]}
           "and wheat" "For wheat" 2).
  vm_compute. reflexivity.
Defined.

(** C2 as stated fails: the session has accumulated [crops = [rice]]; a
    turn that carries [crops = [wheat]] leaves [crops = [wheat]], not
    [[rice; wheat]], while the untouched key [seasons] is kept. *)
Lemma update_context_replaces_entity_values :
  let before :=
    run [GetOrCreate 0 "farmer" "call-1" "en";
         Update 1 "call-1" "crop_advice"
           {[ "crops" := [mkEntityValue "rice" 0.8];
              "seasons" := [mkEntityValue "kharif" 0.8] ]}
           "rice in kharif" "Hello"] init in
  let after :=
    update_context before "call-1" "crop_advice"
      {[ "crops" := [mkEntityValue "wheat" 0.8] ]} "and wheat" "For wheat" 2 in
  (entities <$> active_sessions before !! "call-1") ≫= (.!! "crops")
    = Some [mkEntityValue "rice" 0.8] /\
  (entities <$> active_sessions after !! "call-1") ≫= (.!! "crops")
    = Some [mkEntityValue "wheat" 0.8] /\
  (entities <$> active_sessions after !! "call-1") ≫= (.!! "crops")
    <> Some [mkEntityValue "rice" 0.8; mkEntityValue "wheat" 0.8] /\
  (entities <$> active_sessions after !! "call-1") ≫= (.!! "seasons")
    = Some [mkEntityValue "kharif" 0.8].
Proof.
  repeat split; try (vm_compute; reflexivity).
  vm_compute. discriminate.
Qed.

Lemma get_or_create_context_returns_stored_witness :
  exists stored,
    active_sessions
      (run [Update 7200 "call-1" "weather" ∅ "will it rain" "Tell me"]
           (run [GetOrCreate 0 "farmer" "call-1" "en"] init)) !! "call-1"
    = Some stored /\
    get_or_create_context
      (run [Update 7200 "call-1" "weather" ∅ "will it rain" "Tell me"]
           (run [GetOrCreate 0 "farmer" "call-1" "en"] init))
      "someone else" "call-1" "kn"
    = (set_language stored "kn",
       with_sessions
         (run [Update 7200 "call-1" "weather" ∅ "will it rain" "Tell me"]
              (run [GetOrCreate 0 "farmer" "call-1" "en"] init))
         (<["call-1" := set_language stored "kn"]>
            (active_sessions
               (run [Update 7200 "call-1" "weather" ∅ "will it rain" "Tell me"]
                    (run [GetOrCreate 0 "farmer" "call-1" "en"] init))))) /\
    conversation_history stored =
      Py.last_n 10
        (conversation_history (new_context "farmer" "call-1" "en")
           ++ turns_of "call-1"
                [Update 7200 "call-1" "weather" ∅ "will it rain" "Tell me"]) /\
    user_id stored = user_id (new_context "farmer" "call-1" "en").
Proof.
  apply (get_or_create_context_returns_stored
           [Update 7200 "call-1" "weather" ∅ "will it rain" "Tell me"]
           (run [GetOrCreate 0 "farmer" "call-1" "en"] init)
           "call-1" (new_context "farmer" "call-1" "en") "someone else" "kn").
  - vm_compute. reflexivity.
  - simpl. lia.
Defined.

(** C3 as stated fails: the session was last touched at time 5; a lookup
    two hours later, far beyond the 3600 seconds of [session_timeout], is
    served the stored context with its history instead of a fresh one. *)
Lemma get_or_create_context_serves_idle_session :
  let calls :=
    [GetOrCreate 0 "farmer" "call-1" "en";
     Update 5 "call-1" "weather" ∅ "will it rain" "Tell me"] in
  let manager := run calls init in
  let lookup_time := 7205%Z in
  last_access "call-1" calls = Some 5%Z /\
  (lookup_time - 5 > session_timeout manager)%Z /\
  fst (get_or_create_context manager "farmer" "call-1" "en")
    <> new_context "farmer" "call-1" "en" /\
  map turn_timestamp
      (conversation_history (fst (get_or_create_context manager "farmer" "call-1" "en")))
    = [5%Z].
Proof.
  repeat split; try (vm_compute; reflexivity).
  intros H. apply (f_equal conversation_history) in H.
  vm_compute in H. discriminate.
Qed.

End ManagerExamples.

(** ** Understanding *)

Section UnderstandProperties.

Import MultilingualNLU.

Variable intent_classifier : string -> option string.
Variable entity_extractors : string -> string -> option (list NerHit).
Variable unicode_sub_words : list string -> string -> string.
Variable unicode_findall_words : list string -> string -> list string.
Variable unicode_text : UnicodeText.

Lemma count_in_no_keyword (keywords : list string) (text : string) :
  PyStr.any_in keywords text = false -> PyStr.count_in keywords text = 0.
Proof.
  unfold PyStr.any_in, PyStr.count_in.
  induction keywords as [|keyword keywords IH]; simpl; [reflexivity|].
  destruct (PyStr.contains keyword text); simpl; [discriminate|exact IH].
Qed.

Lemma score_intents_no_keyword (table : list (string * list (string * list string)))
    (text language : string) :
  forallb (fun entry => negb (PyStr.any_in (keywords_for (snd entry) language) text))
          table = true ->
  score_intents table text language = [].
Proof.
  induction table as [|[intent lang_keywords] table IH]; simpl; [reflexivity|].
  intros H. apply andb_prop in H. destruct H as [Hhead Htail].
  apply negb_true_iff in Hhead.
  rewrite (count_in_no_keyword _ _ Hhead). simpl. now apply IH.
Qed.

(** With no keyword in the text the classifier falls back to the model,
    and a failing model gives [general_query] at 0.5. *)
Lemma classify_intent_fallback (text language : string) (context : ConversationContext) :
  no_intent_keyword text language = true ->
  intent_classifier text = None ->
  _classify_intent intent_classifier text language context = ("general_query", 0.5%float).
Proof.
  intros Hnone Hfail. unfold _classify_intent.
  rewrite (score_intents_no_keyword _ _ _ Hnone).
  unfold Py.has_key. simpl. rewrite andb_false_r, Hfail. reflexivity.
Qed.

(** C4, as amended: when the cleaned text holds no keyword of any intent
    and the fallback classifier fails, the intent is [general_query] with
    intent confidence 0.5, and [understand] returns it with the overall
    confidence 0.5 * 0.8 + 0.2, which is 0.6000000000000001 in binary64 and
    not 0.5.  [understand] is a total function: it does not raise. *)
Theorem understand_fallback_confidence (text language : string)
    (context : ConversationContext) :
  no_intent_keyword (_preprocess_text unicode_sub_words unicode_text text language) language = true ->
  intent_classifier (_preprocess_text unicode_sub_words unicode_text text language) = None ->
  understand intent_classifier entity_extractors unicode_sub_words unicode_findall_words unicode_text
    text language context
  = ("general_query",
     _extract_entities entity_extractors unicode_findall_words unicode_text
       (_preprocess_text unicode_sub_words unicode_text text language) language "general_query",
     0.6000000000000001%float) /\
  (0.5 * 0.8 + 0.2 = 0.6000000000000001)%float /\
  0.6000000000000001%float <> 0.5%float.
Proof.
  intros Hnone Hfail. unfold understand.
  rewrite (classify_intent_fallback _ _ context Hnone Hfail).
  repeat split. vm_compute. discriminate.
Qed.

End UnderstandProperties.

Lemma understand_fallback_confidence_witness :
  MultilingualNLU.understand (fun _ => None) (fun _ _ => Some [])
    (fun _ text => text) (fun _ _ => []) Scenario.unicode
    "  Good   morning, 2 acre of land " "en"
    (ConversationManager.new_context "farmer" "call-1" "en")
  = ("general_query",
     MultilingualNLU._extract_entities (fun _ _ => Some []) (fun _ _ => [])
       Scenario.unicode
       (MultilingualNLU._preprocess_text (fun _ text => text) Scenario.unicode
          "  Good   morning, 2 acre of land " "en") "en" "general_query",
     0.6000000000000001%float) /\
  (0.5 * 0.8 + 0.2 = 0.6000000000000001)%float /\
  0.6000000000000001%float <> 0.5%float.
Proof.
  apply (understand_fallback_confidence (fun _ => None) (fun _ _ => Some [])
           (fun _ text => text) (fun _ _ => []) Scenario.unicode
           "  Good   morning, 2 acre of land " "en"
           (ConversationManager.new_context "farmer" "call-1" "en")).
  - reflexivity.
  - reflexivity.
Defined.

(** C4 as stated fails: the text holds no keyword and the classifier
    fails, yet the confidence [understand] returns is not 0.5. *)
Lemma understand_fallback_confidence_is_not_half :
  let result :=
    MultilingualNLU.understand (fun _ => None) (fun _ _ => Some [])
      (fun _ text => text) (fun _ _ => []) Scenario.unicode
      "good morning" "en" (ConversationManager.new_context "farmer" "call-1" "en") in
  MultilingualNLU.no_intent_keyword "good morning" "en" = true /\
  fst (fst result) = "general_query" /\
  snd result = 0.6000000000000001%float /\
  snd result <> 0.5%float.
Proof.
  repeat split; try (vm_compute; reflexivity).
  vm_compute. discriminate.
Qed.

(** The keywords are looked for in the cleaned text: an upper-case
    spelling holds no keyword as typed, and is classified all the same. *)
Example understand_matches_cleaned_text :
  MultilingualNLU.no_intent_keyword "PEST DAMAGE" "en" = true /\
  fst (fst (MultilingualNLU.understand (fun _ => None) (fun _ _ => Some [])
              (fun _ text => text) (fun _ _ => []) Scenario.unicode
              "PEST DAMAGE" "en"
              (ConversationManager.new_context "farmer" "call-1" "en")))
  = "pest_disease".
Proof. split; vm_compute; reflexivity. Qed.

Example understand_quantity_entities :
  snd (fst (MultilingualNLU.understand (fun _ => None) (fun _ _ => Some [])
              (fun _ text => text) (fun _ _ => []) Scenario.unicode
              "  Good   morning, 2 acre of land " "en"
              (ConversationManager.new_context "farmer" "call-1" "en")))
    !! "quantities"
  = Some [mkEntityValue "2 acre" 0.9].
Proof. vm_compute. reflexivity. Qed.

(** ** Response generation *)

Section ResponseProperties.

Import VoiceProcessingSystem.

Lemma append_not_empty_r (s t : string) : t <> "" -> s +:+ t <> "".
Proof. destruct s; simpl; [tauto | discriminate]. Qed.

Lemma lookup_absent {V} (d : list (string * V)) (key : string) :
  ~ In key (map fst d) -> Py.lookup d key = None.
Proof.
  induction d as [|[k v] d IH]; simpl; [reflexivity|].
  intros Hnot. destruct (String.eqb_spec k key) as [-> | Hne]; [tauto|].
  apply IH. tauto.
Qed.

(** A language outside the template table makes the two direct
    subscripts raise. *)
Lemma template_unsupported_language (name language : string) :
  In name ["greeting"; "crop_advice"; "pest_disease"; "error"] ->
  ~ In language ["hi"; "en"; "kn"] ->
  template name language = Py.Raise (Py.KeyError language).
Proof.
  intros Hname Hlang. simpl in Hname.
  destruct Hname as [<- | [<- | [<- | [<- | []]]]];
    unfold template, Py.getitem;
    match goal with
    | |- context [Py.lookup response_templates ?n] =>
        set (o := Py.lookup response_templates n); vm_compute in o; subst o
    end;
    unfold Py.bind; now rewrite lookup_absent.
Qed.

(** The branches written with [responses.get(language, responses['en'])]
    fall back to English. *)
Lemma localized_unsupported_language (responses : list (string * string))
    (language : string) :
  Py.lookup responses language = None ->
  localized responses language = Py.get responses "en" "".
Proof. intros H. unfold localized, Py.get at 1. now rewrite H. Qed.

(** For a supported language the generator answers a non-empty text, for
    every intent and context and every entity map that does not hold an
    empty list of crops. *)
Lemma generate_response_supported_language (intent : string) (ents : Entities)
    (context : ConversationContext) (language : string) :
  In language ["hi"; "en"; "kn"] ->
  ents !! "crops" <> Some [] ->
  exists text,
    _generate_response intent ents context language = Py.Ok text /\ text <> "".
Proof.
  intros Hlang Hcrops. unfold _generate_response.
  simpl in Hlang.
  destruct (String.eqb intent "greeting" || no_history context).
  { destruct Hlang as [<- | [<- | [<- | []]]];
      (eexists; split; [reflexivity | discriminate]). }
  destruct (String.eqb intent "crop_advice").
  { unfold _generate_crop_advice_response.
    destruct (ents !! "crops") as [[|first rest]|]; [congruence | |].
    - destruct Hlang as [<- | [<- | [<- | []]]];
        (eexists; split; [reflexivity|]);
        unfold localized, Py.get; simpl;
        try discriminate; apply append_not_empty_r; discriminate.
    - destruct Hlang as [<- | [<- | [<- | []]]];
        (eexists; split; [reflexivity | discriminate]). }
  destruct (String.eqb intent "pest_disease").
  { destruct Hlang as [<- | [<- | [<- | []]]];
      (eexists; split; [reflexivity | discriminate]). }
  destruct (String.eqb intent "weather").
  { destruct Hlang as [<- | [<- | [<- | []]]];
      (eexists; split; [reflexivity | discriminate]). }
  destruct (String.eqb intent "market_price");
    destruct Hlang as [<- | [<- | [<- | []]]];
    (eexists; split; [reflexivity | discriminate]).
Qed.

(** With the unsupported language [fr], the
    greeting branch (taken for the intent [greeting] and for any intent on
    an empty history) and the crop-advice branch without crops raise
    [KeyError], while the pest, weather, market and general branches of the
    same generator fall back to the English text. *)
Theorem generate_response_unsupported_language_raises
    (intent : string) (ents : Entities) (context answered : ConversationContext) :
  conversation_history answered <> [] ->
  _generate_response "greeting" ents context "fr" = Py.Raise (Py.KeyError "fr") /\
  (conversation_history context = [] ->
   _generate_response intent ents context "fr" = Py.Raise (Py.KeyError "fr")) /\
  (ents !! "crops" = None ->
   _generate_response "crop_advice" ents answered "fr" = Py.Raise (Py.KeyError "fr")) /\
  _generate_response "pest_disease" ents answered "fr"
    = Py.Ok (Py.get pest_responses "en" "") /\
  _generate_response "weather" ents answered "fr"
    = Py.Ok (Py.get weather_responses "en" "") /\
  _generate_response "market_price" ents answered "fr"
    = Py.Ok (Py.get market_responses "en" "") /\
  _generate_response "general_query" ents answered "fr"
    = Py.Ok (Py.get general_responses "en" "").
Proof.
  intros Hanswered.
  assert (Hno : no_history answered = false).
  { unfold no_history. destruct (conversation_history answered); congruence. }
  split; [reflexivity|]. split.
  { intros Hempty. unfold _generate_response, no_history.
    rewrite Hempty, orb_true_r. reflexivity. }
  split.
  { intros Hcrops. unfold _generate_response. rewrite Hno. simpl.
    unfold _generate_crop_advice_response. rewrite Hcrops. reflexivity. }
  unfold _generate_response. rewrite Hno. simpl.
  repeat split.
Qed.

End ResponseProperties.

Lemma generate_response_unsupported_language_raises_witness :
  VoiceProcessingSystem._generate_response "greeting" ∅
    (ConversationManager.new_context "farmer" "call-1" "fr") "fr"
  = Py.Raise (Py.KeyError "fr") /\
  VoiceProcessingSystem._generate_response "pest_disease" ∅
    (ConversationManager.record_turn
       (ConversationManager.new_context "farmer" "call-1" "fr")
       "weather" ∅ "pluie" "Tell me" 1) "fr"
  = Py.Ok "Send photos of leaves for pest/disease identification. Meanwhile, spray neem oil.".
Proof.
  pose proof (generate_response_unsupported_language_raises "weather" ∅
                (ConversationManager.new_context "farmer" "call-1" "fr")
                (ConversationManager.record_turn
                   (ConversationManager.new_context "farmer" "call-1" "fr")
                   "weather" ∅ "pluie" "Tell me" 1)) as H.
  destruct H as (Hgreeting & _ & _ & Hpest & _).
  - simpl. discriminate.
  - split; [exact Hgreeting | exact Hpest].
Defined.

(** ** One turn of the pipeline *)

Section PestTurn.

Import MultilingualNLU VoiceProcessingSystem.

Variable langdetect : string -> option string.
Variable AudioArray : Type.
Variable preprocess_audio : string -> option AudioArray.
Variable whisper_generate : AudioArray -> option string -> option (string * list float).
Variable np_mean : list float -> float.
Variable azure_speech_key : option string.
Variable azure_recognize_once : string -> string -> option MultilingualASR.recognition.
Variable intent_classifier : string -> option string.
Variable entity_extractors : string -> string -> option (list NerHit).
Variable unicode_sub_words : list string -> string -> string.
Variable unicode_findall_words : list string -> string -> list string.
Variable unicode_text : UnicodeText.

Lemma pest_text_cleaned :
  _preprocess_text unicode_sub_words unicode_text "I need help with pest damage on my tomato" "en"
  = "i need help with pest damage on my tomato".
Proof. reflexivity. Qed.

Lemma has_key_singleton {V} (k key : string) (v : V) :
  Py.has_key [(k, v)] key = String.eqb k key.
Proof. unfold Py.has_key. simpl. now destruct (String.eqb k key). Qed.

Lemma scale_item_singleton (k key : string) (v factor : float) :
  scale_item key factor [(k, v)]
  = [if String.eqb k key then (k, (v * factor)%float) else (k, v)].
Proof. reflexivity. Qed.

(** Two of the four English pest keywords occur and no crop-advice
    keyword does, so [pest_disease] is the only candidate; a context whose
    current intent is [pest_disease] raises its score from 0.5 to 0.6. *)
Lemma pest_text_intent (context : ConversationContext) :
  _classify_intent intent_classifier "i need help with pest damage on my tomato" "en"
    context
  = ("pest_disease",
     if String.eqb "pest_disease" (current_intent context)
     then (0.5 * 1.2)%float else 0.5%float).
Proof.
  unfold _classify_intent.
  assert (Hscores :
    score_intents multilingual_keywords "i need help with pest damage on my tomato" "en"
    = [("pest_disease", 0.5%float)]) by (vm_compute; reflexivity).
  rewrite Hscores, has_key_singleton, scale_item_singleton.
  destruct (String.eqb_spec "pest_disease" (current_intent context)) as [Heq | Hne].
  - rewrite <- Heq. vm_compute. reflexivity.
  - rewrite andb_false_r. vm_compute. reflexivity.
Qed.

Lemma pest_text_crops (intent : string) (hits : list NerHit) :
  entity_extractors "en" "i need help with pest damage on my tomato" = Some hits ->
  _extract_entities entity_extractors unicode_findall_words unicode_text
    "i need help with pest damage on my tomato" "en" intent !! "crops"
  = Some [mkEntityValue "tomato" 0.8].
Proof.
  intros Hner. unfold _extract_entities.
  change (extractor_key "en") with "en". rewrite Hner.
  apply lookup_union_Some_l.
  vm_compute. reflexivity.
Qed.

(** The three steps of the turn on one context with an empty history. *)
Lemma pest_turn_steps (context : ConversationContext) (hits : list NerHit) :
  conversation_history context = [] ->
  entity_extractors "en" "i need help with pest damage on my tomato" = Some hits ->
  exists (ents : Entities) (conf : float),
    understand intent_classifier entity_extractors unicode_sub_words
      unicode_findall_words unicode_text "I need help with pest damage on my tomato" "en" context
    = ("pest_disease", ents, conf) /\
    ents !! "crops" = Some [mkEntityValue "tomato" 0.8] /\
    _generate_response "pest_disease" ents context "en"
    = Py.Ok "Hello! I am Hasiru Mitra. How can I help you with your farming today?".
Proof.
  intros Hempty Hner. unfold understand.
  rewrite pest_text_cleaned, pest_text_intent.
  eexists. eexists. split; [reflexivity|]. split.
  - now apply (pest_text_crops "pest_disease" hits).
  - unfold _generate_response, no_history. rewrite Hempty. reflexivity.
Qed.

(** C1, as amended: in a request whose transcription is the sentence
    below, detected as English, for a session that is new or whose stored
    history is empty, the intent is [pest_disease]; provided the NER call
    returns, the entities hold [crops = [tomato]] at confidence 0.8; and
    the response text is the English greeting, because the generator greets
    whenever the history is empty.  On a context with a history the same
    intent and entities give the English pest response. *)
Theorem pest_turn_on_empty_history_greets
    (manager : ConversationManager.t) (voice_input : VoiceInput) (clock : Clock)
    (transcription_confidence : float) (hits : list NerHit) :
  asr_transcribe langdetect AudioArray preprocess_audio whisper_generate np_mean
    azure_speech_key azure_recognize_once (audio_data voice_input)
    (Py.or_default (language_hint voice_input) "auto")
  = ("I need help with pest damage on my tomato", "en", transcription_confidence) ->
  (forall stored,
     ConversationManager.active_sessions manager
       !! Py.or_default (call_sid voice_input) (session_stamp clock) = Some stored ->
     conversation_history stored = []) ->
  entity_extractors "en" "i need help with pest damage on my tomato" = Some hits ->
  let response :=
    fst (process_voice_input langdetect AudioArray preprocess_audio whisper_generate
           np_mean azure_speech_key azure_recognize_once intent_classifier
           entity_extractors unicode_sub_words unicode_findall_words unicode_text
           manager voice_input clock) in
  intent response = "pest_disease" /\
  vr_entities response !! "crops" = Some [mkEntityValue "tomato" 0.8] /\
  response_text response
    = "Hello! I am Hasiru Mitra. How can I help you with your farming today?" /\
  forall answered : ConversationContext,
    conversation_history answered <> [] ->
    _generate_response (intent response) (vr_entities response) answered "en"
    = Py.Ok "Send photos of leaves for pest/disease identification. Meanwhile, spray neem oil.".
Proof.
  intros Hasr Hstored Hner.
  unfold process_voice_input. rewrite Hasr.
  change (negb (Py.truthy "I need help with pest damage on my tomato")) with false.
  cbv iota.
  set (sid := Py.or_default (call_sid voice_input) (session_stamp clock)) in *.
  set (uid := Py.or_default (vi_user_id voice_input) "anonymous").
  assert (Hcontext :
    conversation_history
      (fst (ConversationManager.get_or_create_context manager uid sid "en")) = []).
  { unfold ConversationManager.get_or_create_context.
    destruct (ConversationManager.active_sessions manager !! sid) as [stored|] eqn:Hlook.
    - simpl. now apply Hstored.
    - reflexivity. }
  destruct (ConversationManager.get_or_create_context manager uid sid "en")
    as [context manager1].
  simpl in Hcontext.
  destruct (pest_turn_steps context hits Hcontext Hner)
    as (ents & conf & Hunderstand & Hcrops & Hresponse).
  unfold nlu_understand. rewrite Hunderstand, Hresponse. simpl.
  repeat split; try assumption.
  intros answered Hanswered. unfold _generate_response, no_history.
  destruct (conversation_history answered); [congruence | reflexivity].
Qed.

End PestTurn.

Lemma pest_turn_on_empty_history_greets_witness :
  intent (fst (Scenario.respond ConversationManager.init)) = "pest_disease" /\
  vr_entities (fst (Scenario.respond ConversationManager.init)) !! "crops"
    = Some [mkEntityValue "tomato" 0.8] /\
  response_text (fst (Scenario.respond ConversationManager.init))
    = "Hello! I am Hasiru Mitra. How can I help you with your farming today?".
Proof.
  pose proof (pest_turn_on_empty_history_greets
                (fun _ => None) unit (fun _ => Some tt)
                (fun _ _ => Some (Scenario.sentence, [0.9%float]))
                (fun _ => 0.9%float) None (fun _ _ => None)
                (fun _ => None) (fun _ _ => Some []) (fun _ text => text)
                (fun _ _ => []) Scenario.unicode
                ConversationManager.init Scenario.request Scenario.clock
                0.9%float []) as H.
  destruct H as (Hintent & Hcrops & Htext & _).
  - reflexivity.
  - intros stored Hstored. vm_compute in Hstored. discriminate.
  - reflexivity.
  - split; [exact Hintent | split; [exact Hcrops | exact Htext]].
Defined.

(** C1 as stated fails: on a fresh session the request of the scenario is
    classified [pest_disease] with the crop [tomato], the history the
    generator sees is empty, and the response is the greeting, which is
    neither the pest response nor the [pest_disease] template. *)
Lemma pest_turn_response_is_not_pest_template :
  let response := fst (Scenario.respond ConversationManager.init) in
  transcribed_text response = Scenario.sentence /\
  detected_language response = "en" /\
  intent response = "pest_disease" /\
  vr_entities response !! "crops" = Some [mkEntityValue "tomato" 0.8] /\
  conversation_history
    (fst (ConversationManager.get_or_create_context ConversationManager.init
            "farmer" "call-1" "en")) = [] /\
  Py.Ok (response_text response) = VoiceProcessingSystem.template "greeting" "en" /\
  response_text response
    <> VoiceProcessingSystem.localized VoiceProcessingSystem.pest_responses "en" /\
  Py.Ok (response_text response) <> VoiceProcessingSystem.template "pest_disease" "en".
Proof.
  repeat split; try (vm_compute; reflexivity); vm_compute; discriminate.
Qed.

(** The same request repeated in the session: the first turn has filled
    the history, so the second one gets the pest response. *)
Example pest_turn_second_request :
  response_text
    (fst (Scenario.respond (snd (Scenario.respond ConversationManager.init))))
  = "Send photos of leaves for pest/disease identification. Meanwhile, spray neem oil.".
Proof. vm_compute. reflexivity. Qed.

(** * Further properties of the pipeline's components *)

(** ** Language detection: range and fallback *)

Section DetectorRange.

Variable langdetect : string -> option string.

Lemma lookup_value_in {V} (d : list (string * V)) (key : string) (v : V) :
  Py.lookup d key = Some v -> In v (map snd d).
Proof.
  induction d as [|[k w] d IH]; simpl; [discriminate|].
  destruct (String.eqb k key).
  - intros H. inversion H. now left.
  - intros H. right. now apply IH.
Qed.

Lemma first_keyword_hit_in_table (table : list (string * list string))
    (text lang : string) :
  LanguageDetector.first_keyword_hit table text = Some lang -> In lang (map fst table).
Proof.
  induction table as [|[l kws] table IH]; simpl; [discriminate|].
  destruct (PyStr.any_in kws text).
  - intros H. inversion H. now left.
  - intros H. right. now apply IH.
Qed.

Lemma first_keyword_hit_none (table : list (string * list string)) (text : string) :
  (forall lang kws, In (lang, kws) table -> PyStr.any_in kws text = false) ->
  LanguageDetector.first_keyword_hit table text = None.
Proof.
  induction table as [|[l kws] table IH]; simpl; [reflexivity|].
  intros H. rewrite (H l kws) by now left.
  apply IH. intros lang kws' Hin. apply (H lang kws'). now right.
Qed.

Lemma detect_from_text_supported (text : string) :
  In (LanguageDetector._detect_from_text langdetect text) ["hi"; "en"; "kn"].
Proof.
  unfold LanguageDetector._detect_from_text.
  destruct (LanguageDetector.first_keyword_hit _ text) as [lang|] eqn:Hhit.
  - exact (first_keyword_hit_in_table _ _ _ Hhit).
  - destruct (langdetect text) as [result|]; [|simpl; auto].
    unfold Py.get.
    destruct (Py.lookup LanguageDetector.lang_mapping result) as [v|] eqn:Hlook.
    + exact (lookup_value_in _ _ _ Hlook).
    + simpl. auto.
Qed.

(** The detector only ever answers one of the three supported codes,
    whatever the text, the audio features and the behaviour of the
    general-purpose identifier (including its failure). *)
Theorem detect_language_supported (text : string) (audio : option (list float)) :
  In (LanguageDetector.detect_language langdetect text audio) ["hi"; "en"; "kn"].
Proof.
  rewrite detect_language_audio_irrelevant.
  apply detect_from_text_supported.
Qed.

(** The code the general-purpose identifier reports, passed through the
    allow-list. *)
Lemma lang_mapping_get (result : string) :
  Py.get LanguageDetector.lang_mapping result "en"
  = if existsb (String.eqb result) ["hi"; "en"; "kn"] then result else "en".
Proof.
  unfold Py.get, LanguageDetector.lang_mapping. cbn [Py.lookup existsb].
  rewrite !(String.eqb_sym result).
  destruct (String.eqb_spec "hi" result) as [<- | _]; [reflexivity|].
  destruct (String.eqb_spec "en" result) as [<- | _]; [reflexivity|].
  destruct (String.eqb_spec "kn" result) as [<- | _]; reflexivity.
Qed.

(** When the text holds no keyword of any language, the answer is the
    identifier's code if that is a supported one, and English if the code
    is anything else or the identifier raises. *)
Theorem detect_language_without_keyword (text : string) (audio : option (list float)) :
  PyStr.any_in LanguageDetector.hi_keywords text = false ->
  PyStr.any_in LanguageDetector.en_keywords text = false ->
  PyStr.any_in LanguageDetector.kn_keywords text = false ->
  LanguageDetector.detect_language langdetect text audio
  = match langdetect text with
    | Some result =>
        if existsb (String.eqb result) ["hi"; "en"; "kn"] then result else "en"
    | None => "en"
    end.
Proof.
  intros Hhi Hen Hkn.
  rewrite detect_language_audio_irrelevant.
  unfold LanguageDetector._detect_from_text.
  rewrite first_keyword_hit_none.
  - destruct (langdetect text); [apply lang_mapping_get | reflexivity].
  - intros lang kws Hin. simpl in Hin.
    destruct Hin as [H | [H | [H | []]]]; inversion H; subst; assumption.
Qed.

End DetectorRange.

Lemma detect_language_without_keyword_witness :
  LanguageDetector.detect_language
    (fun text => if String.eqb text "bonjour" then Some "fr" else Some "kn")
    "bonjour" (Some [0.25%float])
  = "en" /\
  LanguageDetector.detect_language
    (fun text => if String.eqb text "bonjour" then Some "fr" else Some "kn")
    "namaskara" None
  = "kn".
Proof.
  split.
  - apply (detect_language_without_keyword
             (fun text => if String.eqb text "bonjour" then Some "fr" else Some "kn")
             "bonjour" (Some [0.25%float])); reflexivity.
  - apply (detect_language_without_keyword
             (fun text => if String.eqb text "bonjour" then Some "fr" else Some "kn")
             "namaskara" None); reflexivity.
Defined.

(** ** Binary64 order *)

Lemma SFltb_asym (x y : spec_float) : SFltb x y = true -> SFltb y x = false.
Proof.
  unfold SFltb.
  destruct x as [sx | sx | | sx mx ex], y as [sy | sy | | sy my ey]; simpl;
    try (destruct sx); try (destruct sy); simpl; try discriminate; try reflexivity.
  - rewrite (Z.compare_antisym ex ey).
    destruct (Z.compare ex ey); simpl; try discriminate; try reflexivity.
    rewrite !Pos.compare_cont_spec. simpl.
    rewrite (Pos.compare_antisym mx my).
    destruct (Pos.compare mx my); simpl; try discriminate; reflexivity.
  - rewrite (Z.compare_antisym ex ey).
    destruct (Z.compare ex ey); simpl; try discriminate; try reflexivity.
    rewrite !Pos.compare_cont_spec. simpl.
    rewrite (Pos.compare_antisym mx my).
    destruct (Pos.compare mx my); simpl; try discriminate; reflexivity.
Qed.

Lemma ltb_asym (x y : float) : PrimFloat.ltb x y = true -> PrimFloat.ltb y x = false.
Proof. rewrite !ltb_spec. apply SFltb_asym. Qed.

(** [min(cap, x)] is never above the cap. *)
Lemma fmin_not_above (cap x : float) :
  PrimFloat.ltb cap cap = false -> PrimFloat.ltb cap (Py.fmin cap x) = false.
Proof.
  intros Hcap. unfold Py.fmin.
  destruct (PrimFloat.ltb x cap) eqn:Hlt; [now apply ltb_asym | exact Hcap].
Qed.

(** ** Speech-to-text: failure, fallback and bounds *)

Section TranscribeFallback.

Variable langdetect : string -> option string.
Variable AudioArray : Type.
Variable preprocess_audio : string -> option AudioArray.
Variable whisper_generate : AudioArray -> option string -> option (string * list float).
Variable np_mean : list float -> float.
Variable azure_speech_key : option string.
Variable azure_recognize_once : string -> string -> option MultilingualASR.recognition.

(** When decoding the audio or the primary engine raises, [transcribe]
    answers the empty text in English at confidence 0.0; the secondary
    engine is not consulted, configured or not. *)
Theorem transcribe_primary_failure (audio_data language_hint : string) :
  preprocess_audio audio_data = None \/
  (exists audio_array,
     preprocess_audio audio_data = Some audio_array /\
     whisper_generate audio_array (MultilingualASR.forced_language language_hint) = None) ->
  MultilingualASR.transcribe langdetect AudioArray preprocess_audio whisper_generate
    np_mean azure_speech_key azure_recognize_once audio_data language_hint
  = ("", "en", 0.0%float).
Proof.
  unfold MultilingualASR.transcribe, MultilingualASR.transcribe_try,
    MultilingualASR._whisper_transcribe.
  intros [Hpre | (audio_array & Hpre & Hgen)].
  - now rewrite Hpre.
  - now rewrite Hpre, Hgen.
Qed.

(** The primary result stands, with the language detected from its text,
    when its confidence is not below 0.7 or when no secondary key is
    configured; what the secondary engine would answer is irrelevant. *)
Theorem transcribe_keeps_primary (audio_data language_hint : string)
    (audio_array : AudioArray) (text : string) (scores : list float) :
  preprocess_audio audio_data = Some audio_array ->
  whisper_generate audio_array (MultilingualASR.forced_language language_hint)
    = Some (text, scores) ->
  PrimFloat.ltb (MultilingualASR._calculate_whisper_confidence np_mean scores) 0.7 = false
    \/ Py.truthy_opt azure_speech_key = false ->
  MultilingualASR.transcribe langdetect AudioArray preprocess_audio whisper_generate
    np_mean azure_speech_key azure_recognize_once audio_data language_hint
  = (text, LanguageDetector.detect_language langdetect text None,
     MultilingualASR._calculate_whisper_confidence np_mean scores).
Proof.
  intros Hpre Hgen Hskip.
  unfold MultilingualASR.transcribe, MultilingualASR.transcribe_try,
    MultilingualASR._whisper_transcribe.
  rewrite Hpre, Hgen.
  destruct Hskip as [Hconf | Hkey].
  - now rewrite Hconf.
  - now rewrite Hkey, andb_false_r.
Qed.

(** A secondary engine that raises or recognises no speech answers
    [("", 0.0)]. *)
Lemma azure_transcribe_no_speech (audio_data language : string) :
  (forall locale text,
     azure_recognize_once audio_data locale <> Some (MultilingualASR.RecognizedSpeech text)) ->
  MultilingualASR._azure_transcribe azure_recognize_once audio_data language
  = ("", 0.0%float).
Proof.
  intros Hnone. unfold MultilingualASR._azure_transcribe.
  destruct (azure_recognize_once audio_data _) as [[text|]|] eqn:Hrec;
    [|reflexivity|reflexivity].
  exfalso. exact (Hnone _ _ Hrec).
Qed.

(** A secondary engine that raises or recognises no speech never takes
    the place of a primary result whose confidence is not negative. *)
Theorem transcribe_survives_secondary_failure (audio_data language_hint : string)
    (audio_array : AudioArray) (text : string) (scores : list float) :
  preprocess_audio audio_data = Some audio_array ->
  whisper_generate audio_array (MultilingualASR.forced_language language_hint)
    = Some (text, scores) ->
  PrimFloat.ltb (MultilingualASR._calculate_whisper_confidence np_mean scores) 0.0 = false ->
  (forall locale recognised,
     azure_recognize_once audio_data locale
     <> Some (MultilingualASR.RecognizedSpeech recognised)) ->
  MultilingualASR.transcribe langdetect AudioArray preprocess_audio whisper_generate
    np_mean azure_speech_key azure_recognize_once audio_data language_hint
  = (text, LanguageDetector.detect_language langdetect text None,
     MultilingualASR._calculate_whisper_confidence np_mean scores).
Proof.
  intros Hpre Hgen Hnonneg Hnone.
  unfold MultilingualASR.transcribe, MultilingualASR.transcribe_try,
    MultilingualASR._whisper_transcribe.
  rewrite Hpre, Hgen, (azure_transcribe_no_speech _ _ Hnone), Hnonneg.
  now destruct (_ && _).
Qed.

(** What [_azure_transcribe] answers, for the locale of the language
    (en-IN for a language without one): the empty text at confidence 0.0
    when the recogniser raises or reports no speech, and the recognised
    text at confidence min(0.9, len(text) / 100 + 0.5) when it reports
    speech.  In every case the confidence is not above 0.9. *)
Theorem azure_transcribe_confidence_capped (audio_data language : string) :
  MultilingualASR._azure_transcribe azure_recognize_once audio_data language
  = match azure_recognize_once audio_data
            (Py.get (Py.get MultilingualASR.language_configs language []) "locale"
                    "en-IN") with
    | Some (MultilingualASR.RecognizedSpeech text) =>
        (text, Py.fmin 0.9 (Py.float_of_nat (PyStr.len text) / 100.0 + 0.5)%float)
    | Some MultilingualASR.NoMatch => ("", 0.0%float)
    | None => ("", 0.0%float)
    end /\
  PrimFloat.ltb 0.9
    (snd (MultilingualASR._azure_transcribe azure_recognize_once audio_data language))
  = false.
Proof.
  unfold MultilingualASR._azure_transcribe.
  destruct (azure_recognize_once audio_data _) as [[text|]|]; simpl;
    (split; [reflexivity|]); try reflexivity.
  now apply fmin_not_above.
Qed.

Lemma transcribe_result_language (audio_data language_hint text lang : string)
    (conf : float) :
  MultilingualASR.transcribe langdetect AudioArray preprocess_audio whisper_generate
    np_mean azure_speech_key azure_recognize_once audio_data language_hint
  = (text, lang, conf) ->
  In lang ["hi"; "en"; "kn"].
Proof.
  unfold MultilingualASR.transcribe.
  destruct (MultilingualASR.transcribe_try _ _ _ _ _ _ _ audio_data language_hint)
    as [[[text' lang'] conf']|] eqn:Htry; intros Heq; inversion Heq; subst;
    [|simpl; auto].
  destruct (transcribe_try_inv _ _ _ _ _ _ _ _ _ _ _ _ Htry)
    as (audio_array & primary_text & primary_conf & _ & Hwhisper & _).
  rewrite (whisper_transcribe_language _ _ _ _ _ _ _ _ _ Hwhisper).
  rewrite detect_language_audio_irrelevant. apply detect_from_text_supported.
Qed.

(** Whatever happens inside [transcribe], the language it returns is one
    of the three supported codes. *)
Theorem transcribe_language_supported (audio_data language_hint : string) :
  In (snd (fst (MultilingualASR.transcribe langdetect AudioArray preprocess_audio
                  whisper_generate np_mean azure_speech_key azure_recognize_once
                  audio_data language_hint)))
     ["hi"; "en"; "kn"].
Proof.
  destruct (MultilingualASR.transcribe langdetect AudioArray preprocess_audio
              whisper_generate np_mean azure_speech_key azure_recognize_once
              audio_data language_hint) as [[text lang] conf] eqn:Hresult.
  simpl. exact (transcribe_result_language _ _ _ _ _ Hresult).
Qed.

End TranscribeFallback.

Lemma transcribe_primary_failure_witness :
  MultilingualASR.transcribe (fun _ => None) unit
    (fun audio => if String.eqb audio "" then None else Some tt)
    (fun _ forced => match forced with Some _ => None | None => Some ("my crop", []) end)
    (fun _ => 0.0%float) (Some "key")
    (fun _ _ => Some (MultilingualASR.RecognizedSpeech "my crop has a pest"))
    "" "auto"
  = ("", "en", 0.0%float) /\
  MultilingualASR.transcribe (fun _ => None) unit
    (fun audio => if String.eqb audio "" then None else Some tt)
    (fun _ forced => match forced with Some _ => None | None => Some ("my crop", []) end)
    (fun _ => 0.0%float) (Some "key")
    (fun _ _ => Some (MultilingualASR.RecognizedSpeech "my crop has a pest"))
    "audio" "xx"
  = ("", "en", 0.0%float).
Proof.
  split.
  - apply (transcribe_primary_failure (fun _ => None) unit
             (fun audio => if String.eqb audio "" then None else Some tt)
             (fun _ forced =>
                match forced with Some _ => None | None => Some ("my crop", []) end)
             (fun _ => 0.0%float) (Some "key")
             (fun _ _ => Some (MultilingualASR.RecognizedSpeech "my crop has a pest"))
             "" "auto").
    left. reflexivity.
  - apply (transcribe_primary_failure (fun _ => None) unit
             (fun audio => if String.eqb audio "" then None else Some tt)
             (fun _ forced =>
                match forced with Some _ => None | None => Some ("my crop", []) end)
             (fun _ => 0.0%float) (Some "key")
             (fun _ _ => Some (MultilingualASR.RecognizedSpeech "my crop has a pest"))
             "audio" "xx").
    right. exists tt. split; reflexivity.
Defined.

Lemma transcribe_keeps_primary_witness :
  MultilingualASR.transcribe (fun _ => None) unit (fun _ => Some tt)
    (fun _ _ => Some ("ನೀರು ಬೇಕು", [0.75%float])) (fun _ => 0.75%float) (Some "key")
    (fun _ _ => Some (MultilingualASR.RecognizedSpeech "my crop has a pest"))
    "audio" "auto"
  = ("ನೀರು ಬೇಕು", "kn", 0.75%float) /\
  MultilingualASR.transcribe (fun _ => None) unit (fun _ => Some tt)
    (fun _ _ => Some ("ನೀರು ಬೇಕು", [0.25%float])) (fun _ => 0.25%float) (Some "")
    (fun _ _ => Some (MultilingualASR.RecognizedSpeech "my crop has a pest"))
    "audio" "auto"
  = ("ನೀರು ಬೇಕು", "kn", 0.25%float).
Proof.
  split.
  - apply (transcribe_keeps_primary (fun _ => None) unit (fun _ => Some tt)
             (fun _ _ => Some ("ನೀರು ಬೇಕು", [0.75%float])) (fun _ => 0.75%float)
             (Some "key")
             (fun _ _ => Some (MultilingualASR.RecognizedSpeech "my crop has a pest"))
             "audio" "auto" tt "ನೀರು ಬೇಕು" [0.75%float]);
      [reflexivity | reflexivity | left; reflexivity].
  - apply (transcribe_keeps_primary (fun _ => None) unit (fun _ => Some tt)
             (fun _ _ => Some ("ನೀರು ಬೇಕು", [0.25%float])) (fun _ => 0.25%float)
             (Some "")
             (fun _ _ => Some (MultilingualASR.RecognizedSpeech "my crop has a pest"))
             "audio" "auto" tt "ನೀರು ಬೇಕು" [0.25%float]);
      [reflexivity | reflexivity | right; reflexivity].
Defined.

Lemma transcribe_survives_secondary_failure_witness :
  MultilingualASR.transcribe (fun _ => None) unit (fun _ => Some tt)
    (fun _ _ => Some ("soil", [])) (fun _ => 0.0%float) (Some "key")
    (fun _ locale =>
       if String.eqb locale "en-IN" then Some MultilingualASR.NoMatch else None)
    "audio" "auto"
  = ("soil", "en", 0.5%float).
Proof.
  apply (transcribe_survives_secondary_failure (fun _ => None) unit (fun _ => Some tt)
           (fun _ _ => Some ("soil", [])) (fun _ => 0.0%float) (Some "key")
           (fun _ locale =>
              if String.eqb locale "en-IN" then Some MultilingualASR.NoMatch else None)
           "audio" "auto" tt "soil" []).
  - reflexivity.
  - reflexivity.
  - reflexivity.
  - intros locale recognised. destruct (String.eqb locale "en-IN"); discriminate.
Defined.

(** ** Intent classification: range, decisive keywords, ties *)

Section ClassifyProperties.

Import MultilingualNLU.

Variable intent_classifier : string -> option string.

Lemma score_intents_keys (table : list (string * list (string * list string)))
    (text language : string) (item : string * float) :
  In item (score_intents table text language) -> In (fst item) (map fst table).
Proof.
  induction table as [|[intent lang_keywords] table IH]; simpl; [tauto|].
  match goal with |- context [if ?b then _ else _] => destruct b end; simpl.
  - intros [<- | Hin]; [now left | right; now apply IH].
  - intros Hin. right. now apply IH.
Qed.

Lemma scale_item_keys (key : string) (factor : float) (scores : list (string * float)) :
  map fst (scale_item key factor scores) = map fst scores.
Proof.
  unfold scale_item. induction scores as [|[k v] scores IH]; simpl; [reflexivity|].
  rewrite IH. now destruct (String.eqb k key).
Qed.

Lemma max_from_in (best : string * float) (rest : list (string * float)) :
  In (max_from best rest) (best :: rest).
Proof.
  revert best. induction rest as [|item rest IH]; intros best; simpl; [now left|].
  destruct (PrimFloat.ltb (snd best) (snd item)).
  - right. apply IH.
  - destruct (IH best) as [H | H]; [now left | right; now right].
Qed.

Lemma classify_intent_cases (text language : string) (context : ConversationContext) :
  In (fst (_classify_intent intent_classifier text language context))
     ["crop_advice"; "pest_disease"; "general_query"] /\
  PrimFloat.ltb 0.9 (snd (_classify_intent intent_classifier text language context))
  = false.
Proof.
  unfold _classify_intent.
  set (scores := score_intents multilingual_keywords text language).
  match goal with
  | |- context [if ?c then scale_item ?k ?f scores else scores] =>
      set (boosted := if c then scale_item k f scores else scores)
  end.
  assert (Hkeys : forall item, In item boosted ->
                    In (fst item) ["crop_advice"; "pest_disease"]).
  { intros item Hin.
    assert (Hmap : In (fst item) (map fst scores)).
    { subst boosted. destruct (Py.truthy _ && _).
      - rewrite <- (scale_item_keys (current_intent context) 1.2 scores).
        now apply in_map.
      - now apply in_map. }
    apply in_map_iff in Hmap. destruct Hmap as (item' & Heq & Hin').
    rewrite <- Heq. exact (score_intents_keys _ _ _ _ Hin'). }
  destruct boosted as [|first rest].
  - destruct (intent_classifier text); simpl; auto.
  - split.
    + specialize (Hkeys _ (max_from_in first rest)). simpl in *. tauto.
    + simpl. now apply fmin_not_above.
Qed.

(** The classifier only ever reports [crop_advice], [pest_disease] or
    [general_query], so the weather and market branches of the response
    generator are never selected by it; and its confidence is never above
    0.9. *)
Theorem classify_intent_range (text language : string) (context : ConversationContext) :
  In (fst (_classify_intent intent_classifier text language context))
     ["crop_advice"; "pest_disease"; "general_query"] /\
  PrimFloat.ltb 0.9 (snd (_classify_intent intent_classifier text language context))
  = false.
Proof.
  destruct (classify_intent_cases text language context) as [Hintent Hconf].
  split; assumption.
Qed.

End ClassifyProperties.

Section ClassifyKeywords.

Import MultilingualNLU.

Variable intent_classifier : string -> option string.

Lemma count_in_keyword (keywords : list string) (text : string) :
  PyStr.any_in keywords text = true -> (0 <? PyStr.count_in keywords text)%nat = true.
Proof.
  unfold PyStr.any_in, PyStr.count_in.
  induction keywords as [|keyword keywords IH]; simpl; [discriminate|].
  destruct (PyStr.contains keyword text); simpl; [reflexivity | exact IH].
Qed.

Lemma count_in_bound (keywords : list string) (text : string) :
  PyStr.count_in keywords text <= length keywords.
Proof. unfold PyStr.count_in. apply List.filter_length_le. Qed.

(** The score table, entry by entry. *)
Lemma score_intents_entries (text language : string) :
  score_intents multilingual_keywords text language
  = ((if (0 <? PyStr.count_in (intent_keywords "crop_advice" language) text)%nat
      then [("crop_advice",
             (Py.float_of_nat (PyStr.count_in (intent_keywords "crop_advice" language) text)
              / Py.float_of_nat (length (intent_keywords "crop_advice" language)))%float)]
      else [])
     ++
     (if (0 <? PyStr.count_in (intent_keywords "pest_disease" language) text)%nat
      then [("pest_disease",
             (Py.float_of_nat (PyStr.count_in (intent_keywords "pest_disease" language) text)
              / Py.float_of_nat (length (intent_keywords "pest_disease" language)))%float)]
      else []))%list.
Proof.
  change (intent_keywords "crop_advice" language)
    with (keywords_for (snd (nth 0 multilingual_keywords ("", []))) language).
  change (intent_keywords "pest_disease" language)
    with (keywords_for (snd (nth 1 multilingual_keywords ("", []))) language).
  unfold multilingual_keywords. cbn [score_intents nth snd].
  do 2 match goal with |- context [if ?b then _ else _] => destruct b end; reflexivity.
Qed.

Lemma keywords_for_cases (lang_keywords : list (string * list string)) (language : string) :
  In (keywords_for lang_keywords language)
     (Py.get lang_keywords "en" [] :: map snd lang_keywords).
Proof.
  unfold keywords_for. unfold Py.get at 1.
  destruct (Py.lookup lang_keywords language) as [kws|] eqn:Hlook.
  - right. exact (lookup_value_in _ _ _ Hlook).
  - now left.
Qed.

(** Every keyword list of the two scored intents has four words, for
    the three languages and for the English default of any other code. *)
Lemma intent_keywords_length (intent language : string) :
  In intent ["crop_advice"; "pest_disease"] ->
  length (intent_keywords intent language) = 4.
Proof.
  intros Hintent. unfold intent_keywords.
  pose proof (keywords_for_cases (Py.get multilingual_keywords intent []) language) as H.
  remember (keywords_for (Py.get multilingual_keywords intent []) language) as kws
    eqn:Hkws.
  clear Hkws.
  simpl in Hintent. destruct Hintent as [<- | [<- | []]];
    vm_compute in H;
    destruct H as [<- | [<- | [<- | [<- | []]]]]; reflexivity.
Qed.

Lemma has_key_pair {V} (k1 k2 key : string) (v1 v2 : V) :
  Py.has_key [(k1, v1); (k2, v2)] key = String.eqb k1 key || String.eqb k2 key.
Proof.
  unfold Py.has_key. simpl.
  destruct (String.eqb k1 key); [reflexivity|]. now destruct (String.eqb k2 key).
Qed.

Lemma scale_item_pair (k1 k2 key : string) (v1 v2 factor : float) :
  scale_item key factor [(k1, v1); (k2, v2)]
  = [if String.eqb k1 key then (k1, (v1 * factor)%float) else (k1, v1);
     if String.eqb k2 key then (k2, (v2 * factor)%float) else (k2, v2)].
Proof. reflexivity. Qed.

(** When the keywords of exactly one of the two scored intents occur in
    the text, that intent is reported, whatever the context's current
    intent and whatever the fallback classifier would do. *)
Theorem classify_intent_single_candidate (text language intent other : string)
    (context : ConversationContext) :
  (intent = "crop_advice" /\ other = "pest_disease") \/
  (intent = "pest_disease" /\ other = "crop_advice") ->
  PyStr.any_in (intent_keywords intent language) text = true ->
  PyStr.any_in (intent_keywords other language) text = false ->
  fst (_classify_intent intent_classifier text language context) = intent.
Proof.
  intros Hcase Hhit Hmiss.
  apply count_in_keyword in Hhit. apply count_in_no_keyword in Hmiss.
  unfold _classify_intent. rewrite score_intents_entries.
  destruct Hcase as [[-> ->] | [-> ->]]; rewrite Hhit, Hmiss; simpl app;
    rewrite has_key_singleton, scale_item_singleton;
    match goal with |- context [String.eqb ?k (current_intent context)] =>
      destruct (String.eqb k (current_intent context))
    end;
    [destruct (Py.truthy (current_intent context)) | rewrite andb_false_r
    |destruct (Py.truthy (current_intent context)) | rewrite andb_false_r];
    reflexivity.
Qed.

(** When both intents have the same positive number of keyword hits,
    [crop_advice], which is scored first, is reported, unless the context's
    current intent is [pest_disease], whose score is then raised by the
    factor 1.2. *)
Theorem classify_intent_tie (text language : string) (context : ConversationContext) :
  PyStr.count_in (intent_keywords "crop_advice" language) text
  = PyStr.count_in (intent_keywords "pest_disease" language) text ->
  PyStr.any_in (intent_keywords "crop_advice" language) text = true ->
  fst (_classify_intent intent_classifier text language context)
  = if String.eqb "pest_disease" (current_intent context)
    then "pest_disease" else "crop_advice".
Proof.
  intros Hsame Hhit.
  apply count_in_keyword in Hhit.
  pose proof (count_in_bound (intent_keywords "crop_advice" language) text) as Hbound.
  unfold _classify_intent. rewrite score_intents_entries.
  rewrite <- Hsame, Hhit, !intent_keywords_length in * by (simpl; auto).
  set (count := PyStr.count_in _ text) in *.
  simpl app. rewrite has_key_pair, scale_item_pair.
  destruct (String.eqb_spec "crop_advice" (current_intent context)) as [Hcrop | _];
    destruct (String.eqb_spec "pest_disease" (current_intent context)) as [Hpest | _];
    try congruence;
    try rewrite <- Hcrop; try rewrite <- Hpest; rewrite ?andb_false_r;
    destruct count as [|[|[|[|[|count]]]]]; try discriminate; try lia;
    vm_compute; reflexivity.
Qed.

End ClassifyKeywords.

Lemma classify_intent_single_candidate_witness :
  fst (MultilingualNLU._classify_intent (fun _ => Some "LABEL_0")
         "बुआई कब करें" "hi"
         (ConversationManager.record_turn
            (ConversationManager.new_context "farmer" "call-1" "hi")
            "pest_disease" ∅ "कीट" "..." 1))
  = "crop_advice".
Proof.
  apply (classify_intent_single_candidate (fun _ => Some "LABEL_0")
           "बुआई कब करें" "hi" "crop_advice" "pest_disease").
  - left. split; reflexivity.
  - reflexivity.
  - reflexivity.
Defined.

Lemma classify_intent_tie_witness :
  fst (MultilingualNLU._classify_intent (fun _ => None) "pest on my crop" "en"
         (ConversationManager.new_context "farmer" "call-1" "en"))
  = "crop_advice" /\
  fst (MultilingualNLU._classify_intent (fun _ => None) "pest on my crop" "en"
         (ConversationManager.record_turn
            (ConversationManager.new_context "farmer" "call-1" "en")
            "pest_disease" ∅ "insect" "..." 1))
  = "pest_disease".
Proof.
  split.
  - apply (classify_intent_tie (fun _ => None) "pest on my crop" "en"
             (ConversationManager.new_context "farmer" "call-1" "en"));
      reflexivity.
  - apply (classify_intent_tie (fun _ => None) "pest on my crop" "en"
             (ConversationManager.record_turn
                (ConversationManager.new_context "farmer" "call-1" "en")
                "pest_disease" ∅ "insect" "..." 1));
      reflexivity.
Defined.

(** ** Entity extraction *)

Section EntityProperties.

Import MultilingualNLU.

Variable entity_extractors : string -> string -> option (list NerHit).
Variable unicode_findall_words : list string -> string -> list string.
Variable unicode_text : UnicodeText.

(** The grouping loop, from any map built so far: a type none of whose
    results passes the threshold keeps its entry, and the others get the
    passing results appended in order. *)
Lemma fold_add_hit_lookup (ner_results : list NerHit) :
  forall (entities : Entities) (key : string),
    fold_left add_hit ner_results entities !! key
    = match ner_values key ner_results with
      | [] => entities !! key
      | values => Some (default [] (entities !! key) ++ values)%list
      end.
Proof.
  induction ner_results as [|hit ner_results IH]; intros entities key; [reflexivity|].
  simpl fold_left. rewrite IH. unfold ner_values. simpl List.filter.
  unfold add_hit.
  destruct (PrimFloat.ltb 0.5 (score hit)) eqn:Hscore.
  - destruct (String.eqb_spec (entity hit) key) as [-> | Hne]; simpl.
    + rewrite lookup_insert_eq. simpl.
      destruct (map _ (List.filter _ ner_results)) as [|v vs].
      * reflexivity.
      * now rewrite <- app_assoc.
    + now rewrite lookup_insert_ne.
  - now rewrite andb_false_r.
Qed.

(** What the NER loop stores under an entity type: the results of that
    type whose score is above 0.5, in the order reported, and no entry at
    all when there is none. *)
Theorem ner_grouping_keeps_confident_hits (ner_results : list NerHit) (key : string) :
  fold_left add_hit ner_results ∅ !! key
  = match ner_values key ner_results with
    | [] => None
    | values => Some values
    end.
Proof.
  rewrite fold_add_hit_lookup, lookup_empty. reflexivity.
Qed.

End EntityProperties.

Section EntityMapProperties.

Import MultilingualNLU.

Variable intent_classifier : string -> option string.
Variable entity_extractors : string -> string -> option (list NerHit).
Variable unicode_sub_words : list string -> string -> string.
Variable unicode_findall_words : list string -> string -> list string.
Variable unicode_text : UnicodeText.

Lemma entity_map_ok_empty : entity_map_ok ∅.
Proof. intros key values H. rewrite lookup_empty in H. discriminate. Qed.

Lemma entity_map_ok_insert (entities : Entities) (key : string)
    (values : list EntityValue) :
  entity_map_ok entities ->
  values <> [] ->
  Forall (fun v => PrimFloat.ltb 0.5 (confidence v) = true) values ->
  entity_map_ok (<[key := values]> entities).
Proof.
  intros Hok Hne Hall k vs Hlook.
  destruct (String.eqb_spec key k) as [-> | Hdiff].
  - rewrite lookup_insert_eq in Hlook. inversion Hlook; subst. auto.
  - rewrite lookup_insert_ne in Hlook by assumption. now apply (Hok k).
Qed.

Lemma entity_map_ok_union (e1 e2 : Entities) :
  entity_map_ok e1 -> entity_map_ok e2 -> entity_map_ok (e1 ∪ e2).
Proof.
  intros H1 H2 key values Hlook.
  apply lookup_union_Some_raw in Hlook.
  destruct Hlook as [Hl | [_ Hr]]; [now apply (H1 key) | now apply (H2 key)].
Qed.

Lemma pattern_values_ok {A} (f : A -> string) (c : float) (x : A) (l : list A) :
  PrimFloat.ltb 0.5 c = true ->
  map (fun a => mkEntityValue (f a) c) (x :: l) <> [] /\
  Forall (fun v => PrimFloat.ltb 0.5 (confidence v) = true)
         (map (fun a => mkEntityValue (f a) c) (x :: l)).
Proof.
  intros Hc. split; [discriminate|].
  apply Forall_forall. intros v Hin. apply list_elem_of_In in Hin.
  apply in_map_iff in Hin.
  destruct Hin as (a & <- & _). exact Hc.
Qed.

Lemma agricultural_entities_ok (text language intent : string) :
  entity_map_ok
    (_extract_agricultural_entities unicode_findall_words unicode_text text language intent).
Proof.
  unfold _extract_agricultural_entities.
  destruct (re_findall_words _ (Py.get crop_patterns _ _) text) as [|crop crops];
    destruct (re_findall_quantities _ quantity_units text) as [|qty quantities];
    destruct (re_findall_words _ (Py.get season_patterns _ _) text) as [|season seasons];
    repeat (apply entity_map_ok_insert;
            [ | apply (pattern_values_ok _ _ _ _); reflexivity
              | apply (pattern_values_ok _ _ _ _); reflexivity ]);
    apply entity_map_ok_empty.
Qed.

Lemma add_hit_ok (entities : Entities) (hit : NerHit) :
  entity_map_ok entities -> entity_map_ok (add_hit entities hit).
Proof.
  intros Hok. unfold add_hit.
  destruct (PrimFloat.ltb 0.5 (score hit)) eqn:Hscore; [|exact Hok].
  apply entity_map_ok_insert; [exact Hok | |].
  - destruct (default [] (entities !! entity hit)); discriminate.
  - apply Forall_app. split.
    + destruct (entities !! entity hit) as [values|] eqn:Hlook; simpl.
      * now apply (Hok (entity hit)).
      * constructor.
    + repeat constructor. exact Hscore.
Qed.

Lemma fold_add_hit_ok (ner_results : list NerHit) :
  forall entities, entity_map_ok entities ->
    entity_map_ok (fold_left add_hit ner_results entities).
Proof.
  induction ner_results as [|hit ner_results IH]; intros entities Hok; [exact Hok|].
  simpl. apply IH. now apply add_hit_ok.
Qed.

Lemma extract_entities_ok (text language intent : string) :
  entity_map_ok
    (_extract_entities entity_extractors unicode_findall_words unicode_text text language intent).
Proof.
  unfold _extract_entities.
  destruct (entity_extractors _ _) as [ner_results|]; [|apply entity_map_ok_empty].
  apply entity_map_ok_union.
  - apply agricultural_entities_ok.
  - apply fold_add_hit_ok, entity_map_ok_empty.
Qed.

(** Whatever the NER pipeline answers, and also when it raises, the
    entity map [understand] returns stores no empty list and no value
    whose confidence is 0.5 or less. *)
Theorem understand_entities_well_formed (text language : string)
    (context : ConversationContext) :
  entity_map_ok
    (snd (fst (understand intent_classifier entity_extractors unicode_sub_words
                 unicode_findall_words unicode_text text language context))).
Proof.
  unfold understand.
  destruct (_classify_intent intent_classifier _ language context) as [intent conf].
  simpl. apply extract_entities_ok.
Qed.

(** When the NER call returns, an entity type found by the patterns
    (crops, quantities, seasons) holds exactly the pattern matches, which
    take the place of any NER result of that type; every other type holds
    the NER results above the threshold, in order, or is absent. *)
Theorem extract_entities_by_type (text language intent : string)
    (ner_results : list NerHit) (key : string) :
  entity_extractors (extractor_key language) text = Some ner_results ->
  _extract_entities entity_extractors unicode_findall_words unicode_text text language intent !! key
  = match _extract_agricultural_entities unicode_findall_words unicode_text text language intent
          !! key with
    | Some values => Some values
    | None =>
        match ner_values key ner_results with
        | [] => None
        | values => Some values
        end
    end.
Proof.
  intros Hner. unfold _extract_entities. rewrite Hner.
  rewrite lookup_union, fold_add_hit_lookup, lookup_empty.
  destruct (_extract_agricultural_entities _ _ text language intent !! key);
    destruct (ner_values key ner_results); reflexivity.
Qed.

End EntityMapProperties.

Lemma extract_entities_by_type_witness :
  MultilingualNLU._extract_entities
    (fun _ _ =>
       Some [MultilingualNLU.mkNerHit "crops" "paddy" 0.99;
             MultilingualNLU.mkNerHit "LOC" "mysuru" 0.4;
             MultilingualNLU.mkNerHit "LOC" "mandya" 0.97;
             MultilingualNLU.mkNerHit "LOC" "hassan" 0.6])
    (fun _ _ => []) Scenario.unicode
    "rice near mysuru, mandya and hassan" "en" "crop_advice"
    !! "crops"
  = Some [mkEntityValue "rice" 0.8] /\
  MultilingualNLU._extract_entities
    (fun _ _ =>
       Some [MultilingualNLU.mkNerHit "crops" "paddy" 0.99;
             MultilingualNLU.mkNerHit "LOC" "mysuru" 0.4;
             MultilingualNLU.mkNerHit "LOC" "mandya" 0.97;
             MultilingualNLU.mkNerHit "LOC" "hassan" 0.6])
    (fun _ _ => []) Scenario.unicode
    "rice near mysuru, mandya and hassan" "en" "crop_advice"
    !! "LOC"
  = Some [mkEntityValue "mandya" 0.97; mkEntityValue "hassan" 0.6].
Proof.
  split.
  - rewrite (extract_entities_by_type
               (fun _ _ =>
                  Some [MultilingualNLU.mkNerHit "crops" "paddy" 0.99;
                        MultilingualNLU.mkNerHit "LOC" "mysuru" 0.4;
                        MultilingualNLU.mkNerHit "LOC" "mandya" 0.97;
                        MultilingualNLU.mkNerHit "LOC" "hassan" 0.6])
               (fun _ _ => []) Scenario.unicode _ _ _ _ "crops" eq_refl).
    vm_compute. reflexivity.
  - rewrite (extract_entities_by_type
               (fun _ _ =>
                  Some [MultilingualNLU.mkNerHit "crops" "paddy" 0.99;
                        MultilingualNLU.mkNerHit "LOC" "mysuru" 0.4;
                        MultilingualNLU.mkNerHit "LOC" "mandya" 0.97;
                        MultilingualNLU.mkNerHit "LOC" "hassan" 0.6])
               (fun _ _ => []) Scenario.unicode _ _ _ _ "LOC" eq_refl).
    vm_compute. reflexivity.
Defined.

(** ** Text cleaning *)

Section PreprocessProperties.

Import MultilingualNLU.

Variable intent_classifier : string -> option string.
Variable entity_extractors : string -> string -> option (list NerHit).
Variable unicode_sub_words : list string -> string -> string.
Variable unicode_findall_words : list string -> string -> list string.
Variable unicode_text : UnicodeText.

Lemma lower_char_idempotent (c : ascii) :
  AsciiText.lower_char (AsciiText.lower_char c) = AsciiText.lower_char c.
Proof. destruct c as [[] [] [] [] [] [] [] []]; reflexivity. Qed.

Lemma is_space_lower_char (c : ascii) :
  AsciiText.is_space (AsciiText.lower_char c) = AsciiText.is_space c.
Proof. destruct c as [[] [] [] [] [] [] [] []]; reflexivity. Qed.

Lemma lower_idempotent (s : string) : AsciiText.lower (AsciiText.lower s) = AsciiText.lower s.
Proof.
  induction s as [|c s IH]; simpl; [reflexivity|].
  now rewrite lower_char_idempotent, IH.
Qed.

Lemma lower_is_empty (s : string) : String.eqb (AsciiText.lower s) "" = String.eqb s "".
Proof. destruct s; reflexivity. Qed.

Lemma lstrip_lower (s : string) : AsciiText.lstrip (AsciiText.lower s) = AsciiText.lower (AsciiText.lstrip s).
Proof.
  induction s as [|c s IH]; simpl; [reflexivity|].
  rewrite is_space_lower_char. now destruct (AsciiText.is_space c).
Qed.

Lemma rstrip_lower (s : string) : AsciiText.rstrip (AsciiText.lower s) = AsciiText.lower (AsciiText.rstrip s).
Proof.
  induction s as [|c s IH]; simpl; [reflexivity|].
  rewrite is_space_lower_char, IH, lower_is_empty.
  now destruct (AsciiText.is_space c && String.eqb (AsciiText.rstrip s) "").
Qed.

Lemma collapse_blanks_lower (in_run : bool) (s : string) :
  AsciiText.collapse_blanks in_run (AsciiText.lower s)
  = AsciiText.lower (AsciiText.collapse_blanks in_run s).
Proof.
  revert in_run. induction s as [|c s IH]; intros in_run; simpl; [reflexivity|].
  rewrite is_space_lower_char.
  destruct (AsciiText.is_space c), in_run; simpl; now rewrite IH.
Qed.

Lemma is_ascii_cons (c : ascii) (s : string) :
  PyStr.is_ascii (String c s) = (nat_of_ascii c <? 128)%nat && PyStr.is_ascii s.
Proof. reflexivity. Qed.

Lemma lower_char_ascii (c : ascii) :
  (nat_of_ascii (AsciiText.lower_char c) <? 128)%nat = (nat_of_ascii c <? 128)%nat.
Proof. destruct c as [[] [] [] [] [] [] [] []]; reflexivity. Qed.

Lemma is_ascii_lower (s : string) :
  PyStr.is_ascii (AsciiText.lower s) = PyStr.is_ascii s.
Proof.
  induction s as [|c s IH]; [reflexivity|].
  cbn [AsciiText.lower]. now rewrite !is_ascii_cons, lower_char_ascii, IH.
Qed.

Lemma is_ascii_lstrip (s : string) :
  PyStr.is_ascii s = true -> PyStr.is_ascii (AsciiText.lstrip s) = true.
Proof.
  induction s as [|c s IH]; [reflexivity|].
  cbn [AsciiText.lstrip]. destruct (AsciiText.is_space c); [|tauto].
  rewrite is_ascii_cons. intros H. apply andb_prop in H. now apply IH.
Qed.

Lemma is_ascii_rstrip (s : string) :
  PyStr.is_ascii s = true -> PyStr.is_ascii (AsciiText.rstrip s) = true.
Proof.
  induction s as [|c s IH]; [reflexivity|].
  cbn [AsciiText.rstrip]. rewrite is_ascii_cons. intros H.
  apply andb_prop in H. destruct H as [Hc Hs].
  destruct (AsciiText.is_space c && String.eqb (AsciiText.rstrip s) ""); [reflexivity|].
  rewrite is_ascii_cons, Hc. now apply IH.
Qed.

Lemma is_ascii_collapse_blanks (in_run : bool) (s : string) :
  PyStr.is_ascii s = true ->
  PyStr.is_ascii (AsciiText.collapse_blanks in_run s) = true.
Proof.
  revert in_run. induction s as [|c s IH]; intros in_run; [reflexivity|].
  cbn [AsciiText.collapse_blanks]. rewrite is_ascii_cons. intros H.
  apply andb_prop in H. destruct H as [Hc Hs].
  destruct (AsciiText.is_space c); [destruct in_run|];
    rewrite ?is_ascii_cons, ?Hc; simpl; now apply IH.
Qed.

Lemma is_ascii_strip (s : string) :
  PyStr.is_ascii s = true -> PyStr.is_ascii (AsciiText.strip s) = true.
Proof. intros H. unfold AsciiText.strip. now apply is_ascii_rstrip, is_ascii_lstrip. Qed.

Lemma preprocess_text_lower (text language : string) :
  PyStr.is_ascii text = true ->
  language <> "hi" -> language <> "kn" ->
  _preprocess_text unicode_sub_words unicode_text (AsciiText.lower text) language
  = _preprocess_text unicode_sub_words unicode_text text language.
Proof.
  intros Hascii Hhi Hkn.
  unfold _preprocess_text, str_strip, re_sub_blanks, str_lower.
  apply String.eqb_neq in Hhi. apply String.eqb_neq in Hkn.
  rewrite Hhi, Hkn, is_ascii_lower, Hascii.
  pose proof (is_ascii_strip text Hascii) as Hstrip.
  pose proof (is_ascii_collapse_blanks false _ Hstrip) as Hcollapse.
  unfold AsciiText.strip in *.
  rewrite lstrip_lower, rstrip_lower, is_ascii_lower, Hstrip.
  rewrite collapse_blanks_lower, is_ascii_lower, Hcollapse.
  now rewrite lower_idempotent.
Qed.

(** For an ASCII text and every language other than Hindi and Kannada
    (whose filler words are removed before lower-casing), [understand]
    does not depend on the case of the letters: the lower-cased text gets
    the same intent, entities and confidence. *)
Theorem understand_ignores_case (text language : string) (context : ConversationContext) :
  PyStr.is_ascii text = true ->
  language <> "hi" -> language <> "kn" ->
  understand intent_classifier entity_extractors unicode_sub_words
    unicode_findall_words unicode_text (AsciiText.lower text) language context
  = understand intent_classifier entity_extractors unicode_sub_words
      unicode_findall_words unicode_text text language context.
Proof.
  intros Hascii Hhi Hkn. unfold understand. now rewrite preprocess_text_lower.
Qed.

End PreprocessProperties.

Lemma understand_ignores_case_witness :
  MultilingualNLU.understand (fun _ => None) (fun _ _ => Some [])
    (fun _ text => text) (fun _ _ => []) Scenario.unicode
    (AsciiText.lower "My TOMATO Crop has INSECT Damage") "en"
    (ConversationManager.new_context "farmer" "call-1" "en")
  = MultilingualNLU.understand (fun _ => None) (fun _ _ => Some [])
      (fun _ text => text) (fun _ _ => []) Scenario.unicode
      "My TOMATO Crop has INSECT Damage" "en"
      (ConversationManager.new_context "farmer" "call-1" "en").
Proof.
  apply (understand_ignores_case (fun _ => None) (fun _ _ => Some [])
           (fun _ text => text) (fun _ _ => []) Scenario.unicode
           "My TOMATO Crop has INSECT Damage" "en"
           (ConversationManager.new_context "farmer" "call-1" "en"));
    [reflexivity | discriminate | discriminate].
Defined.

(** ** The session registry: invariant, lookup and update *)

Section RegistryProperties.

Import ConversationManager.

Lemma step_well_formed (self : t) (c : call) :
  well_formed self -> well_formed (step self c).
Proof.
  intros Hwf sid context Hlook.
  destruct c as [now uid s lang | now s intent te ui resp]; simpl in Hlook.
  - unfold get_or_create_context in Hlook.
    destruct (active_sessions self !! s) as [stored|] eqn:Hs; simpl in Hlook.
    + destruct (String.eqb_spec s sid) as [-> | Hne].
      * rewrite lookup_insert_eq in Hlook. inversion Hlook; subst. simpl.
        now apply Hwf.
      * rewrite lookup_insert_ne in Hlook by assumption. now apply Hwf.
    + destruct (String.eqb_spec s sid) as [-> | Hne].
      * rewrite lookup_insert_eq in Hlook. inversion Hlook; subst. simpl.
        split; [reflexivity | lia].
      * rewrite lookup_insert_ne in Hlook by assumption. now apply Hwf.
  - unfold update_context in Hlook.
    destruct (active_sessions self !! s) as [stored|] eqn:Hs; simpl in Hlook;
      [|now apply Hwf].
    destruct (String.eqb_spec s sid) as [-> | Hne].
    + rewrite lookup_insert_eq in Hlook. inversion Hlook; subst. simpl.
      split; [now apply Hwf|]. rewrite last_n_length. lia.
    + rewrite lookup_insert_ne in Hlook by assumption. now apply Hwf.
Qed.

(** Starting from a new manager, after any sequence of lookups and
    updates with any arguments, every registered context is stored under
    its own session id and its history has at most ten entries. *)
Theorem manager_keeps_registry_well_formed (calls : list call) :
  well_formed (run calls init).
Proof.
  assert (Hgen : forall self, well_formed self -> well_formed (run calls self)).
  { induction calls as [|c calls IH]; intros self Hwf; [exact Hwf|].
    simpl. apply IH. now apply step_well_formed. }
  apply Hgen. intros sid context Hlook.
  simpl in Hlook. rewrite lookup_empty in Hlook. discriminate.
Qed.

Lemma set_language_idempotent (context : ConversationContext) (lang : string) :
  set_language (set_language context lang) lang = set_language context lang.
Proof. reflexivity. Qed.

(** What a lookup leaves behind: the returned context is registered under
    the session id with the requested language, no other session is
    touched, and repeating the lookup with that language, under any user
    id, returns the same context and changes nothing. *)
Theorem get_or_create_context_registers (self : t) (uid uid' sid lang : string) :
  let context := fst (get_or_create_context self uid sid lang) in
  let self' := snd (get_or_create_context self uid sid lang) in
  active_sessions self' !! sid = Some context /\
  language context = lang /\
  (forall other, other <> sid ->
     active_sessions self' !! other = active_sessions self !! other) /\
  get_or_create_context self' uid' sid lang = (context, self').
Proof.
  unfold get_or_create_context.
  destruct (active_sessions self !! sid) as [stored|] eqn:Hs; simpl;
    (split; [apply lookup_insert_eq|]); (split; [reflexivity|]);
    (split; [intros other Hne; now apply lookup_insert_ne|]);
    rewrite lookup_insert_eq; cbn [set_language language user_id session_id
      current_intent entities conversation_history user_profile farm_context
      new_context with_sessions active_sessions session_timeout];
    now rewrite insert_insert_eq.
Qed.

Lemma last_n_keeps_last {A} (n : nat) (l : list A) (x : A) :
  last (Py.last_n (S n) (l ++ [x])) = Some x.
Proof.
  unfold Py.last_n. rewrite length_app. simpl length.
  rewrite drop_app_le by lia. apply last_snoc.
Qed.

(** What an update of a registered session does: the context stays under
    its key with its owner, session id, language and profiles unchanged,
    its current intent is the turn's, the newest history entry is the
    turn's record; no other session is touched and none is added. *)
Theorem update_context_records_turn (self : t) (sid intent : string)
    (turn_entities : Entities) (user_input response : string) (now : Z)
    (context : ConversationContext) :
  active_sessions self !! sid = Some context ->
  let self' := update_context self sid intent turn_entities user_input response now in
  exists context',
    active_sessions self' !! sid = Some context' /\
    current_intent context' = intent /\
    last (conversation_history context')
      = Some (mkTurn now user_input intent turn_entities response) /\
    (user_id context', session_id context', language context',
     user_profile context', farm_context context')
    = (user_id context, session_id context, language context,
       user_profile context, farm_context context) /\
    (forall other, other <> sid ->
       active_sessions self' !! other = active_sessions self !! other) /\
    dom (active_sessions self') = dom (active_sessions self).
Proof.
  intros Hreg. unfold update_context. rewrite Hreg. simpl.
  eexists. split; [apply lookup_insert_eq|]. simpl.
  split; [reflexivity|]. split; [apply last_n_keeps_last|].
  split; [reflexivity|]. split.
  - intros other Hne. now apply lookup_insert_ne.
  - rewrite dom_insert_L. apply elem_of_dom_2 in Hreg.
    apply set_eq. intros x. rewrite elem_of_union, elem_of_singleton.
    split; [intros [-> | Hx]; assumption | auto].
Qed.

End RegistryProperties.

Lemma update_context_records_turn_witness :
  exists context',
    ConversationManager.active_sessions
      (ConversationManager.update_context
         (ConversationManager.run
            [ConversationManager.GetOrCreate 0 "farmer" "call-1" "kn";
             ConversationManager.GetOrCreate 0 "grower" "call-2" "hi"]
            ConversationManager.init)
         "call-1" "weather" ∅ "ಮಳೆ" "Tell me" 9) !! "call-1" = Some context' /\
    current_intent context' = "weather" /\
    last (conversation_history context') = Some (mkTurn 9 "ಮಳೆ" "weather" ∅ "Tell me") /\
    (user_id context', session_id context', language context',
     user_profile context', farm_context context')
    = (user_id (ConversationManager.new_context "farmer" "call-1" "kn"),
       session_id (ConversationManager.new_context "farmer" "call-1" "kn"),
       language (ConversationManager.new_context "farmer" "call-1" "kn"),
       user_profile (ConversationManager.new_context "farmer" "call-1" "kn"),
       farm_context (ConversationManager.new_context "farmer" "call-1" "kn")) /\
    (forall other, other <> "call-1" ->
       ConversationManager.active_sessions
         (ConversationManager.update_context
            (ConversationManager.run
               [ConversationManager.GetOrCreate 0 "farmer" "call-1" "kn";
                ConversationManager.GetOrCreate 0 "grower" "call-2" "hi"]
               ConversationManager.init)
            "call-1" "weather" ∅ "ಮಳೆ" "Tell me" 9) !! other
       = ConversationManager.active_sessions
           (ConversationManager.run
              [ConversationManager.GetOrCreate 0 "farmer" "call-1" "kn";
               ConversationManager.GetOrCreate 0 "grower" "call-2" "hi"]
              ConversationManager.init) !! other) /\
    dom (ConversationManager.active_sessions
           (ConversationManager.update_context
              (ConversationManager.run
                 [ConversationManager.GetOrCreate 0 "farmer" "call-1" "kn";
                  ConversationManager.GetOrCreate 0 "grower" "call-2" "hi"]
                 ConversationManager.init)
              "call-1" "weather" ∅ "ಮಳೆ" "Tell me" 9))
    = dom (ConversationManager.active_sessions
             (ConversationManager.run
                [ConversationManager.GetOrCreate 0 "farmer" "call-1" "kn";
                 ConversationManager.GetOrCreate 0 "grower" "call-2" "hi"]
                ConversationManager.init)).
Proof.
  apply (update_context_records_turn
           (ConversationManager.run
              [ConversationManager.GetOrCreate 0 "farmer" "call-1" "kn";
               ConversationManager.GetOrCreate 0 "grower" "call-2" "hi"]
              ConversationManager.init)
           "call-1" "weather" ∅ "ಮಳೆ" "Tell me" 9
           (ConversationManager.new_context "farmer" "call-1" "kn")).
  vm_compute. reflexivity.
Defined.

(** ** Response generation: fallback and interpolation *)

Section ResponseFallback.

Import VoiceProcessingSystem.

Lemma localized_english (responses : list (string * string)) :
  localized responses "en" = Py.get responses "en" "".
Proof.
  unfold localized. unfold Py.get at 1.
  destruct (Py.lookup responses "en") as [text|] eqn:Hlook; [|reflexivity].
  unfold Py.get. now rewrite Hlook.
Qed.

Lemma localized_falls_back (responses : list (string * string)) (language : string) :
  ~ In language (map fst responses) ->
  localized responses language = localized responses "en".
Proof.
  intros Habsent. rewrite localized_english.
  apply localized_unsupported_language. now apply lookup_absent.
Qed.

(** [entities] has no entry for the crops. *)
Lemma no_crops_cases (ents : Entities) :
  match ents !! "crops" with None => true | Some _ => false end = true ->
  ents !! "crops" = None.
Proof. destruct (ents !! "crops"); [discriminate | reflexivity]. Qed.

(** The generator on a language outside hi, en, kn, for every intent,
    entity map and context: the greeting branch (intent [greeting], or any
    intent on an empty history) and the crop-advice branch without a crops
    entity raise [KeyError] with the language as key; every other branch
    answers exactly what it answers for English. *)
Theorem generate_response_unsupported_language (intent : string) (ents : Entities)
    (context : ConversationContext) (language : string) :
  ~ In language ["hi"; "en"; "kn"] ->
  _generate_response intent ents context language
  = if String.eqb intent "greeting" || no_history context
       || (String.eqb intent "crop_advice"
           && match ents !! "crops" with None => true | Some _ => false end)
    then Py.Raise (Py.KeyError language)
    else _generate_response intent ents context "en".
Proof.
  intros Hlang. unfold _generate_response.
  destruct (String.eqb intent "greeting" || no_history context); simpl.
  { apply template_unsupported_language; simpl; auto. }
  destruct (String.eqb intent "crop_advice"); simpl.
  { unfold _generate_crop_advice_response.
    destruct (ents !! "crops") as [[|first rest]|]; [reflexivity | |].
    - rewrite (localized_falls_back _ language) by exact Hlang. reflexivity.
    - apply template_unsupported_language; simpl; auto. }
  unfold _generate_pest_response, _generate_weather_response,
    _generate_market_response, _generate_general_response.
  rewrite (localized_falls_back pest_responses language),
    (localized_falls_back weather_responses language),
    (localized_falls_back market_responses language),
    (localized_falls_back general_responses language) by exact Hlang.
  reflexivity.
Qed.

Lemma startswith_append (kw post : string) : PyStr.startswith kw (kw +:+ post) = true.
Proof.
  induction kw as [|c kw IH]; simpl; [reflexivity|].
  now rewrite Ascii.eqb_refl, IH.
Qed.

Lemma contains_append (pre kw post : string) :
  PyStr.contains kw (pre +:+ kw +:+ post) = true.
Proof.
  induction pre as [|c pre IH]; simpl.
  - destruct (kw +:+ post) eqn:Heq; simpl; rewrite <- ?Heq, startswith_append;
      reflexivity.
  - rewrite IH. apply orb_true_r.
Qed.

(** With a crops entity and a history, the crop-advice answer names the
    first crop of the list, in every language: the text of the answer
    contains that crop's value. *)
Theorem crop_advice_names_first_crop (ents : Entities) (context : ConversationContext)
    (language : string) (first : EntityValue) (rest : list EntityValue) :
  ents !! "crops" = Some (first :: rest) ->
  conversation_history context <> [] ->
  exists text,
    _generate_response "crop_advice" ents context language = Py.Ok text /\
    PyStr.contains (value first) text = true.
Proof.
  intros Hcrops Hhistory. unfold _generate_response, no_history.
  destruct (conversation_history context) as [|turn turns]; [congruence|].
  simpl. unfold _generate_crop_advice_response. rewrite Hcrops.
  eexists. split; [reflexivity|].
  unfold localized, Py.get, crop_advice_responses. cbn [Py.lookup].
  destruct (String.eqb "hi" language); [apply (contains_append "")|].
  change (String.eqb "en" "en") with true. cbv iota.
  destruct (String.eqb "en" language); [apply (contains_append "For ")|].
  destruct (String.eqb "kn" language);
    [apply (contains_append "") | apply (contains_append "For ")].
Qed.

(** For a supported language the generator answers a non-empty text for
    every intent and context and every entity map that is well formed (as
    every map [understand] returns is). *)
Theorem generate_response_answers (intent : string) (ents : Entities)
    (context : ConversationContext) (language : string) :
  In language ["hi"; "en"; "kn"] ->
  MultilingualNLU.entity_map_ok ents ->
  exists text,
    _generate_response intent ents context language = Py.Ok text /\ text <> "".
Proof.
  intros Hlang Hok.
  apply generate_response_supported_language; [exact Hlang|].
  intros Hcrops. destruct (Hok "crops" [] Hcrops) as [Hne _]. now apply Hne.
Qed.

End ResponseFallback.

Lemma generate_response_unsupported_language_witness :
  VoiceProcessingSystem._generate_response "crop_advice" ∅
    (ConversationManager.record_turn
       (ConversationManager.new_context "farmer" "call-1" "ta")
       "weather" ∅ "mazhai" "Tell me" 1) "ta"
  = Py.Raise (Py.KeyError "ta") /\
  VoiceProcessingSystem._generate_response "crop_advice"
    {[ "crops" := [mkEntityValue "rice" 0.8] ]}
    (ConversationManager.record_turn
       (ConversationManager.new_context "farmer" "call-1" "ta")
       "weather" ∅ "mazhai" "Tell me" 1) "ta"
  = Py.Ok "For rice cultivation, first get your soil tested. Choose appropriate seeds.".
Proof.
  split.
  - rewrite (generate_response_unsupported_language "crop_advice" ∅
               (ConversationManager.record_turn
                  (ConversationManager.new_context "farmer" "call-1" "ta")
                  "weather" ∅ "mazhai" "Tell me" 1) "ta").
    + reflexivity.
    + simpl. intros [H | [H | [H | []]]]; discriminate.
  - rewrite (generate_response_unsupported_language "crop_advice"
               {[ "crops" := [mkEntityValue "rice" 0.8] ]}
               (ConversationManager.record_turn
                  (ConversationManager.new_context "farmer" "call-1" "ta")
                  "weather" ∅ "mazhai" "Tell me" 1) "ta").
    + vm_compute. reflexivity.
    + simpl. intros [H | [H | [H | []]]]; discriminate.
Defined.

Lemma crop_advice_names_first_crop_witness :
  exists text,
    VoiceProcessingSystem._generate_response "crop_advice"
      {[ "crops" := [mkEntityValue "ಅಕ್ಕಿ" 0.8; mkEntityValue "ಜೋಳ" 0.8] ]}
      (ConversationManager.record_turn
         (ConversationManager.new_context "farmer" "call-1" "kn")
         "weather" ∅ "ಮಳೆ" "Tell me" 1) "kn"
    = Py.Ok text /\
    PyStr.contains (value (mkEntityValue "ಅಕ್ಕಿ" 0.8)) text = true.
Proof.
  apply (crop_advice_names_first_crop
           {[ "crops" := [mkEntityValue "ಅಕ್ಕಿ" 0.8; mkEntityValue "ಜೋಳ" 0.8] ]}
           (ConversationManager.record_turn
              (ConversationManager.new_context "farmer" "call-1" "kn")
              "weather" ∅ "ಮಳೆ" "Tell me" 1)
           "kn" (mkEntityValue "ಅಕ್ಕಿ" 0.8) [mkEntityValue "ಜೋಳ" 0.8]).
  - vm_compute. reflexivity.
  - simpl. discriminate.
Defined.

Lemma generate_response_answers_witness :
  exists text,
    VoiceProcessingSystem._generate_response "market_price"
      {[ "seasons" := [mkEntityValue "rabi" 0.8] ]}
      (ConversationManager.record_turn
         (ConversationManager.new_context "farmer" "call-1" "hi")
         "weather" ∅ "बारिश" "Tell me" 1) "hi"
    = Py.Ok text /\ text <> "".
Proof.
  apply (generate_response_answers "market_price"
           {[ "seasons" := [mkEntityValue "rabi" 0.8] ]}
           (ConversationManager.record_turn
              (ConversationManager.new_context "farmer" "call-1" "hi")
              "weather" ∅ "बारिश" "Tell me" 1) "hi").
  - simpl. auto.
  - intros key values Hlook.
    destruct (String.eqb_spec "seasons" key) as [<- | Hne].
    + rewrite lookup_singleton_eq in Hlook. inversion Hlook; subst.
      split; [discriminate | repeat constructor].
    + rewrite lookup_singleton_ne in Hlook by assumption. discriminate.
Defined.

(** ** The request pipeline *)

Section PipelineProperties.

Import MultilingualNLU VoiceProcessingSystem.

Variable langdetect : string -> option string.
Variable AudioArray : Type.
Variable preprocess_audio : string -> option AudioArray.
Variable whisper_generate : AudioArray -> option string -> option (string * list float).
Variable np_mean : list float -> float.
Variable azure_speech_key : option string.
Variable azure_recognize_once : string -> string -> option MultilingualASR.recognition.
Variable intent_classifier : string -> option string.
Variable entity_extractors : string -> string -> option (list NerHit).
Variable unicode_sub_words : list string -> string -> string.
Variable unicode_findall_words : list string -> string -> list string.
Variable unicode_text : UnicodeText.

Let transcribe_request (voice_input : VoiceInput) : string * string * float :=
  asr_transcribe langdetect AudioArray preprocess_audio whisper_generate np_mean
    azure_speech_key azure_recognize_once (audio_data voice_input)
    (Py.or_default (language_hint voice_input) "auto").

Let respond (manager : ConversationManager.t) (voice_input : VoiceInput) (clock : Clock)
  : VoiceResponse * ConversationManager.t :=
  process_voice_input langdetect AudioArray preprocess_audio whisper_generate np_mean
    azure_speech_key azure_recognize_once intent_classifier entity_extractors
    unicode_sub_words unicode_findall_words unicode_text manager voice_input clock.

Lemma truthy_not_empty (s : string) : s <> "" -> Py.truthy s = true.
Proof. intros H. unfold Py.truthy. apply String.eqb_neq in H. now rewrite H. Qed.

Lemma get_or_create_context_found (self : ConversationManager.t)
    (uid sid lang : string) :
  ConversationManager.well_formed self ->
  let context := fst (ConversationManager.get_or_create_context self uid sid lang) in
  let self' := snd (ConversationManager.get_or_create_context self uid sid lang) in
  ConversationManager.active_sessions self' !! sid = Some context /\
  session_id context = sid /\
  language context = lang /\
  ConversationManager.well_formed self' /\
  ((forall stored, ConversationManager.active_sessions self !! sid = Some stored ->
      conversation_history stored = []) ->
   conversation_history context = []).
Proof.
  intros Hwf.
  pose proof (step_well_formed self (ConversationManager.GetOrCreate 0 uid sid lang) Hwf)
    as Hwf'.
  simpl in Hwf'. revert Hwf'.
  unfold ConversationManager.get_or_create_context.
  destruct (ConversationManager.active_sessions self !! sid) as [stored|] eqn:Hs;
    simpl; intros Hwf'.
  - split; [apply lookup_insert_eq|]. split; [now apply Hwf|].
    split; [reflexivity|]. split; [exact Hwf'|]. intros H. now apply H.
  - split; [apply lookup_insert_eq|]. split; [reflexivity|].
    split; [reflexivity|]. split; [exact Hwf'|]. reflexivity.
Qed.

Lemma understand_result (text language : string) (context : ConversationContext)
    (intent : string) (ents : Entities) (conf : float) :
  understand intent_classifier entity_extractors unicode_sub_words unicode_findall_words unicode_text
    text language context = (intent, ents, conf) ->
  In intent ["crop_advice"; "pest_disease"; "general_query"] /\ entity_map_ok ents.
Proof.
  unfold understand.
  pose proof (classify_intent_cases intent_classifier
                (_preprocess_text unicode_sub_words unicode_text text language) language context)
    as [Hintent _].
  destruct (_classify_intent intent_classifier _ language context) as [i c].
  intros H. inversion H; subst. split; [exact Hintent | apply extract_entities_ok].
Qed.

(** A request whose transcription comes back empty (the speech engines
    failed, or nothing was said) is answered with the error template of
    the language the transcription reported, at confidence 0.0 and with no
    context snapshot, and leaves the manager untouched: no session is
    created. *)
Theorem process_voice_input_without_transcription
    (manager : ConversationManager.t) (voice_input : VoiceInput) (clock : Clock) :
  fst (fst (transcribe_request voice_input)) = "" ->
  snd (respond manager voice_input clock) = manager /\
  intent (fst (respond manager voice_input clock)) = "error" /\
  transcribed_text (fst (respond manager voice_input clock)) = "" /\
  confidence_score (fst (respond manager voice_input clock)) = 0.0%float /\
  context_updated (fst (respond manager voice_input clock)) = None /\
  detected_language (fst (respond manager voice_input clock))
    = snd (fst (transcribe_request voice_input)) /\
  Py.Ok (response_text (fst (respond manager voice_input clock)))
    = template "error" (detected_language (fst (respond manager voice_input clock))) /\
  response_text (fst (respond manager voice_input clock)) <> "".
Proof.
  unfold respond, transcribe_request, process_voice_input.
  destruct (asr_transcribe _ _ _ _ _ _ _ (audio_data voice_input) _)
    as [[text lang] conf] eqn:Hasr.
  simpl. intros ->.
  pose proof (transcribe_result_language _ _ _ _ _ _ _ _ _ _ _ _ Hasr) as Hlang.
  simpl. repeat split;
    simpl in Hlang; destruct Hlang as [<- | [<- | [<- | []]]];
    (reflexivity || discriminate).
Qed.

(** A request with a non-empty transcription, on a well-formed manager,
    is never answered with the error response: the language is a supported
    one, the intent is one of the three the classifier knows, the entity
    map is well formed, the response text is not empty; and afterwards the
    session is registered under the call's id (or the generated one) with
    that language and intent, its newest history entry records this turn,
    the response carries that context, and the manager is well formed
    again. *)
Theorem process_voice_input_answers
    (manager : ConversationManager.t) (voice_input : VoiceInput) (clock : Clock) :
  ConversationManager.well_formed manager ->
  fst (fst (transcribe_request voice_input)) <> "" ->
  let response := fst (respond manager voice_input clock) in
  let manager' := snd (respond manager voice_input clock) in
  transcribed_text response = fst (fst (transcribe_request voice_input)) /\
  In (detected_language response) ["hi"; "en"; "kn"] /\
  In (intent response) ["crop_advice"; "pest_disease"; "general_query"] /\
  entity_map_ok (vr_entities response) /\
  response_text response <> "" /\
  ConversationManager.well_formed manager' /\
  exists context,
    context_updated response = Some context /\
    ConversationManager.active_sessions manager'
      !! Py.or_default (call_sid voice_input) (session_stamp clock) = Some context /\
    language context = detected_language response /\
    current_intent context = intent response /\
    last (conversation_history context)
    = Some (mkTurn (update_time clock) (transcribed_text response) (intent response)
              (vr_entities response) (response_text response)).
Proof.
  intros Hwf. unfold respond, transcribe_request, process_voice_input.
  destruct (asr_transcribe _ _ _ _ _ _ _ (audio_data voice_input) _)
    as [[text lang] conf] eqn:Hasr.
  simpl fst. intros Htext.
  pose proof (transcribe_result_language _ _ _ _ _ _ _ _ _ _ _ _ Hasr) as Hlang.
  rewrite (truthy_not_empty _ Htext). cbn [negb].
  set (sid := Py.or_default (call_sid voice_input) (session_stamp clock)).
  set (uid := Py.or_default (vi_user_id voice_input) "anonymous").
  destruct (get_or_create_context_found manager uid sid lang Hwf)
    as (Hreg & Hsid & Hlanguage & Hwf1 & _).
  destruct (ConversationManager.get_or_create_context manager uid sid lang)
    as [context manager1].
  simpl in Hreg, Hsid, Hlanguage, Hwf1.
  unfold nlu_understand.
  destruct (understand _ _ _ _ _ text lang context) as [[intent ents] nlu_conf] eqn:Hund.
  destruct (understand_result _ _ _ _ _ _ Hund) as [Hintent Hents].
  assert (Hcrops : ents !! "crops" <> Some []).
  { intros H. destruct (Hents "crops" [] H) as [Hne _]. now apply Hne. }
  destruct (generate_response_supported_language intent ents context lang Hlang Hcrops)
    as (answer & Hanswer & Hnonempty).
  rewrite Hanswer. simpl.
  split; [reflexivity|]. split; [exact Hlang|]. split; [exact Hintent|].
  split; [exact Hents|]. split; [exact Hnonempty|]. split.
  - exact (step_well_formed manager1
             (ConversationManager.Update (update_time clock) (session_id context)
                intent ents text answer) Hwf1).
  - unfold ConversationManager.update_context. rewrite Hsid, Hreg. simpl.
    rewrite lookup_insert_eq. eexists. split; [reflexivity|].
    split; [reflexivity|]. simpl. split; [exact Hlanguage|].
    split; [reflexivity|]. apply last_n_keeps_last.
Qed.

(** The first answer in a session is always the greeting: for a request
    with a non-empty transcription whose session is new, or is registered
    with an empty history, the response text is the greeting template of
    the detected language, whatever was said and whatever intent and
    entities were understood. *)
Theorem process_voice_input_first_turn_greets
    (manager : ConversationManager.t) (voice_input : VoiceInput) (clock : Clock) :
  ConversationManager.well_formed manager ->
  fst (fst (transcribe_request voice_input)) <> "" ->
  (forall stored,
     ConversationManager.active_sessions manager
       !! Py.or_default (call_sid voice_input) (session_stamp clock) = Some stored ->
     conversation_history stored = []) ->
  Py.Ok (response_text (fst (respond manager voice_input clock)))
  = template "greeting" (detected_language (fst (respond manager voice_input clock))).
Proof.
  intros Hwf. unfold respond, transcribe_request, process_voice_input.
  destruct (asr_transcribe _ _ _ _ _ _ _ (audio_data voice_input) _)
    as [[text lang] conf] eqn:Hasr.
  simpl fst. intros Htext Hfresh.
  pose proof (transcribe_result_language _ _ _ _ _ _ _ _ _ _ _ _ Hasr) as Hlang.
  rewrite (truthy_not_empty _ Htext). cbn [negb].
  set (sid := Py.or_default (call_sid voice_input) (session_stamp clock)) in *.
  set (uid := Py.or_default (vi_user_id voice_input) "anonymous").
  destruct (get_or_create_context_found manager uid sid lang Hwf)
    as (_ & _ & _ & _ & Hhistory).
  specialize (Hhistory Hfresh).
  destruct (ConversationManager.get_or_create_context manager uid sid lang)
    as [context manager1].
  simpl in Hhistory.
  destruct (nlu_understand _ _ _ _ _ text lang context) as [[intent ents] nlu_conf].
  unfold _generate_response, no_history. rewrite Hhistory, orb_true_r.
  simpl in Hlang. destruct Hlang as [<- | [<- | [<- | []]]]; reflexivity.
Qed.

End PipelineProperties.

Lemma init_well_formed : ConversationManager.well_formed ConversationManager.init.
Proof.
  intros sid context Hlook. simpl in Hlook. rewrite lookup_empty in Hlook. discriminate.
Qed.

(** Audio that cannot be decoded: the English error text, no session. *)
Lemma process_voice_input_without_transcription_witness :
  snd (VoiceProcessingSystem.process_voice_input
         (fun _ => None) unit (fun _ => None) (fun _ _ => Some ("my crop", []))
         (fun _ => 0.0%float) (Some "key")
         (fun _ _ => Some (MultilingualASR.RecognizedSpeech "my crop"))
         (fun _ => None) (fun _ _ => Some []) (fun _ text => text) (fun _ _ => []) Scenario.unicode
         ConversationManager.init Scenario.request Scenario.clock)
  = ConversationManager.init /\
  response_text
    (fst (VoiceProcessingSystem.process_voice_input
            (fun _ => None) unit (fun _ => None) (fun _ _ => Some ("my crop", []))
            (fun _ => 0.0%float) (Some "key")
            (fun _ _ => Some (MultilingualASR.RecognizedSpeech "my crop"))
            (fun _ => None) (fun _ _ => Some []) (fun _ text => text) (fun _ _ => []) Scenario.unicode
            ConversationManager.init Scenario.request Scenario.clock))
  = "Sorry, I had difficulty understanding. Please tell me again.".
Proof.
  destruct (process_voice_input_without_transcription
              (fun _ => None) unit (fun _ => None) (fun _ _ => Some ("my crop", []))
              (fun _ => 0.0%float) (Some "key")
              (fun _ _ => Some (MultilingualASR.RecognizedSpeech "my crop"))
              (fun _ => None) (fun _ _ => Some []) (fun _ text => text) (fun _ _ => []) Scenario.unicode
              ConversationManager.init Scenario.request Scenario.clock)
    as (Hmanager & _ & _ & _ & _ & _ & Htext & _).
  - reflexivity.
  - split; [exact Hmanager|].
    vm_compute in Htext. inversion Htext. reflexivity.
Defined.

Lemma process_voice_input_answers_witness :
  In (intent (fst (Scenario.respond ConversationManager.init)))
     ["crop_advice"; "pest_disease"; "general_query"] /\
  response_text (fst (Scenario.respond ConversationManager.init)) <> "" /\
  exists context,
    context_updated (fst (Scenario.respond ConversationManager.init)) = Some context /\
    ConversationManager.active_sessions (snd (Scenario.respond ConversationManager.init))
      !! "call-1" = Some context /\
    current_intent context = intent (fst (Scenario.respond ConversationManager.init)).
Proof.
  destruct (process_voice_input_answers
              (fun _ => None) unit (fun _ => Some tt)
              (fun _ _ => Some (Scenario.sentence, [0.9%float]))
              (fun _ => 0.9%float) None (fun _ _ => None)
              (fun _ => None) (fun _ _ => Some []) (fun _ text => text) (fun _ _ => []) Scenario.unicode
              ConversationManager.init Scenario.request Scenario.clock)
    as (_ & _ & Hintent & _ & Htext & _ & context & Hsnapshot & Hreg & _ & Hcurrent & _).
  - exact init_well_formed.
  - vm_compute. discriminate.
  - split; [exact Hintent|]. split; [exact Htext|].
    exists context. split; [exact Hsnapshot|]. split; [exact Hreg | exact Hcurrent].
Defined.

Lemma process_voice_input_first_turn_greets_witness :
  Py.Ok (response_text (fst (Scenario.respond ConversationManager.init)))
  = VoiceProcessingSystem.template "greeting"
      (detected_language (fst (Scenario.respond ConversationManager.init))).
Proof.
  apply (process_voice_input_first_turn_greets
           (fun _ => None) unit (fun _ => Some tt)
           (fun _ _ => Some (Scenario.sentence, [0.9%float]))
           (fun _ => 0.9%float) None (fun _ _ => None)
           (fun _ => None) (fun _ _ => Some []) (fun _ text => text) (fun _ _ => []) Scenario.unicode
           ConversationManager.init Scenario.request Scenario.clock).
  - exact init_well_formed.
  - vm_compute. discriminate.
  - intros stored Hstored. vm_compute in Hstored. discriminate.
Defined.

(** ** Pattern extraction *)

Section PatternProperties.

Import MultilingualNLU.

Variable unicode_findall_words : list string -> string -> list string.
Variable unicode_text : UnicodeText.

Lemma istartswith_take (alt s : string) :
  AsciiText.istartswith alt s = true ->
  AsciiText.lower (AsciiText.take (String.length alt) s) = AsciiText.lower alt.
Proof.
  revert s. induction alt as [|a alt IH]; intros s; simpl.
  - intros _. destruct s; reflexivity.
  - destruct s as [|b s]; [discriminate|].
    intros H. apply andb_prop in H. destruct H as [Hhead Htail].
    apply Ascii.eqb_eq in Hhead.
    unfold AsciiText.take in *. simpl. now rewrite (IH s Htail), Hhead.
Qed.

Lemma match_alternative_in (alts : list string) (s m : string) :
  AsciiText.match_alternative alts s = Some m ->
  exists alt, In alt alts /\ AsciiText.lower m = AsciiText.lower alt.
Proof.
  induction alts as [|alt alts IH]; simpl; [discriminate|].
  destruct (AsciiText.istartswith alt s) eqn:Hprefix; simpl.
  - destruct (AsciiText.word_boundary _ _).
    + intros H. inversion H; subst. exists alt. split; [now left|].
      now apply istartswith_take.
    + intros H. destruct (IH H) as (alt' & Hin & Heq). exists alt'. auto.
  - intros H. destruct (IH H) as (alt' & Hin & Heq). exists alt'. auto.
Qed.

Lemma findall_words_from_in (alts : list string) (s : string) :
  forall (prev : option ascii) (inside : nat) (m : string),
    In m (AsciiText.findall_words_from alts prev inside s) ->
    exists alt, In alt alts /\ AsciiText.lower m = AsciiText.lower alt.
Proof.
  induction s as [|c s IH]; intros prev inside m; simpl; [tauto|].
  destruct inside as [|k]; [|apply IH].
  unfold AsciiText.match_word.
  destruct (AsciiText.word_boundary prev (AsciiText.head (String c s))); [|apply IH].
  destruct (AsciiText.match_alternative alts (String c s)) as [found|] eqn:Hmatch;
    [|apply IH].
  intros [<- | Hin]; [exact (match_alternative_in _ _ _ Hmatch) | exact (IH _ _ _ Hin)].
Qed.

Lemma crop_pattern_default (language : string) :
  language <> "hi" -> language <> "kn" ->
  Py.get crop_patterns language (Py.get crop_patterns "en" [])
  = Py.get crop_patterns "en" [].
Proof.
  intros Hhi Hkn. unfold Py.get at 1. unfold crop_patterns at 1. cbn [Py.lookup].
  destruct (String.eqb_spec "hi" language) as [Heq | _]; [congruence|].
  destruct (String.eqb_spec "en" language) as [_ | _]; [reflexivity|].
  destruct (String.eqb_spec "kn" language) as [Heq | _]; [congruence | reflexivity].
Qed.

(** For an ASCII text and every language other than Hindi and Kannada,
    each crop the patterns extract is, up to the case of its letters, one
    of the nine English crop names of the pattern, and carries the
    confidence 0.8. *)
Theorem extracted_crops_are_known (text language intent : string)
    (values : list EntityValue) :
  PyStr.is_ascii text = true ->
  language <> "hi" -> language <> "kn" ->
  _extract_agricultural_entities unicode_findall_words unicode_text text language intent !! "crops"
  = Some values ->
  Forall (fun v =>
            In (AsciiText.lower (value v))
               ["rice"; "wheat"; "corn"; "tomato"; "onion"; "cotton"; "sugarcane";
                "turmeric"; "chili"] /\
            confidence v = 0.8%float) values.
Proof.
  intros Htext Hhi Hkn. unfold _extract_agricultural_entities.
  rewrite (crop_pattern_default language Hhi Hkn).
  set (alts := Py.get crop_patterns "en" []).
  assert (Hascii : re_findall_words unicode_findall_words alts text
                   = AsciiText.findall_words alts text).
  { unfold re_findall_words. rewrite Htext. reflexivity. }
  rewrite Hascii.
  assert (Hknown : forall m, In m (AsciiText.findall_words alts text) ->
                     In (AsciiText.lower m) alts).
  { intros m Hin.
    destruct (findall_words_from_in alts text None 0 m Hin) as (alt & Halt & Heq).
    rewrite Heq. clear Heq Hin.
    simpl in Halt.
    repeat (destruct Halt as [<- | Halt]; [vm_compute; tauto|]). destruct Halt. }
  destruct (AsciiText.findall_words alts text) as [|crop crops] eqn:Hfound;
    destruct (re_findall_quantities _ quantity_units text);
    destruct (re_findall_words _ (Py.get season_patterns _ _) text);
    rewrite ?lookup_insert_ne, ?lookup_insert_eq, ?lookup_empty by discriminate;
    intros H; inversion H; subst;
    apply Forall_forall; intros v Hv; apply list_elem_of_In in Hv;
    apply (in_map_iff (fun crop => mkEntityValue crop 0.8) (crop :: crops)) in Hv;
    destruct Hv as (m & <- & Hm);
    (split; [exact (Hknown m Hm) | reflexivity]).
Qed.

End PatternProperties.

Lemma extracted_crops_are_known_witness :
  Forall (fun v =>
            In (AsciiText.lower (value v))
               ["rice"; "wheat"; "corn"; "tomato"; "onion"; "cotton"; "sugarcane";
                "turmeric"; "chili"] /\
            confidence v = 0.8%float)
         [mkEntityValue "Rice" 0.8; mkEntityValue "WHEAT" 0.8].
Proof.
  apply (extracted_crops_are_known (fun _ _ => []) Scenario.unicode
           "Rice, then WHEAT; no ricebran, 3 kg" "ta" "crop_advice").
  - reflexivity.
  - discriminate.
  - discriminate.
  - vm_compute. reflexivity.
Defined.

(** ** The response generator, language by language *)

Section ResponseByLanguage.

Import VoiceProcessingSystem.




End ResponseByLanguage.


